(** * train_GAN.py: checkpointed adversarial training orchestrator

    A shallow embedding of [src/train_GAN.py] (OmniPose adversarial training
    driver) and the properties of its loss functions, its resume logic, its
    learning-rate replay, its best-model bookkeeping and its per-batch loop.

    Conventions.
    - Tensor entries and scalar losses are real numbers: the arithmetic of
      the loss functions is the exact one, rounding is not modelled.
    - Validation metrics and learning rates are rationals, so that the
      epoch loop and the scheduler compute.
    - Python dictionaries that are only looked up are [gmap string _];
      [state_dict()] of a live module is a key/value list in its own
      iteration order. *)

From Stdlib Require Import Reals Lra QArith Qpower.
From stdpp Require Import base option list strings gmap.

(** ** Tensors *)

Module Tensor.

(** A [torch.Tensor]: its [size()] and its entries in row-major order. *)
Record tensor (A : Type) : Type := mkTensor { size : list nat; data : list A }.
Arguments mkTensor {A} _ _.
Arguments size {A} _.
Arguments data {A} _.

(** [a.size() == b.size()] *)
Definition same_size {A B} (a : tensor A) (b : tensor B) : bool :=
  bool_decide (size a = size b).

(** Pointwise application of a scalar function, shape preserved. *)
Definition tmap {A B} (f : A -> B) (t : tensor A) : tensor B :=
  mkTensor (size t) (List.map f (data t)).

End Tensor.
Export Tensor.

(** ** Adversarial loss engine (lines 241-262) *)

Module Loss.
Local Open Scope R_scope.

Fixpoint Rsum (l : list R) : R :=
  match l with
  | [] => 0
  | x :: l' => x + Rsum l'
  end.

(** [t.mean()]: the sum of all entries over their number. For an empty
    tensor torch returns nan; the quotient here is then 0, and the
    properties of the mean are stated for non-empty tensors. *)
Definition mean (t : tensor R) : R := Rsum (data t) / INR (length (data t)).

(** [torch.log(t)]. [ln] is total and 0 on non-positive arguments, where
    torch returns nan or -inf. *)
Definition torch_log (t : tensor R) : tensor R := tmap ln t.

(** [s + t] and [s - t] for a Python scalar [s] and a tensor [t]. *)
Definition scalar_add (s : R) (t : tensor R) : tensor R := tmap (fun x => s + x) t.
Definition scalar_sub (s : R) (t : tensor R) : tensor R := tmap (fun x => s - x) t.

(** [a - b] for two tensors; [None] when the sizes are not identical
    (broadcasting between different sizes is outside the model). *)
Fixpoint zip_sub (a b : list R) : list R :=
  match a, b with
  | x :: a', y :: b' => (x - y) :: zip_sub a' b'
  | _, _ => []
  end.

Definition tensor_sub (a b : tensor R) : option (tensor R) :=
  if same_size a b && bool_decide (length (data a) = length (data b))
  then Some (mkTensor (size a) (zip_sub (data a) (data b)))
  else None.

(** [t ** 2] *)
Definition tensor_sq (t : tensor R) : tensor R := tmap (fun x => x ^ 2) t.

(** The default of the keyword argument [eps=1e-5]. *)
Definition eps_default : R := 1 / 100000.

(** [_get_loss_disc(disc_output, real, eps)] *)
Definition _get_loss_disc (disc_output : tensor R) (real : bool) (eps : R) : R :=
  if real
  then - mean (torch_log (scalar_add eps disc_output))
  else - mean (torch_log (scalar_sub (eps + 1) disc_output)).

(** [get_loss_disc(disc_fake, disc_real)] *)
Definition get_loss_disc (disc_fake disc_real : tensor R) : R :=
  _get_loss_disc disc_fake false eps_default + _get_loss_disc disc_real true eps_default.

(** [get_loss_gen(outputs, disc_fake, target)] *)
Definition get_loss_gen (outputs disc_fake target : tensor R) : option R :=
  diff ← tensor_sub outputs target;
  let loss_gen := mean (tensor_sq diff) in
  let loss_disc := _get_loss_disc disc_fake true eps_default in
  Some (loss_gen + loss_disc).

End Loss.

(** ** Python values and exceptions used by the driver *)

Module Py.

Inductive exn : Type :=
  | NameError (name : string)
  | UnboundLocalError (name : string)
  | ZeroDivisionError
  | TypeError (what : string)
  | ValueError (what : string)
  | RuntimeError (what : string).

(** The outcome of a call that may raise. *)
Inductive result (T : Type) : Type :=
  | Ok (v : T)
  | Raise (e : exn).
Arguments Ok {T} _.
Arguments Raise {T} _.

Definition bind {T U} (r : result T) (k : T -> result U) : result U :=
  match r with
  | Ok v => k v
  | Raise e => Raise e
  end.

(** A number that is either a Python [int] or a Python [float]. *)
Inductive pynum : Type :=
  | PyInt (z : Z)
  | PyFloat (q : Q).

Definition num_value (n : pynum) : Q :=
  match n with
  | PyInt z => inject_Z z
  | PyFloat q => q
  end.

(** [range(n)] and [range(a, b)] *)
Definition range (n : Z) : list Z := seqZ 0 n.
Definition range2 (a b : Z) : list Z := seqZ a (b - a).

End Py.
Export Py.

(** ** Modules, optimizers and checkpoints (the [torch] objects of [main]) *)

Module Torch.

(** A live [nn.Module], seen through [state_dict()]: parameter names with
    their tensors, in iteration order. *)
Abbreviation module A := (list (string * tensor A)).

Section Objects.
Context {A Buf : Type}.

(** A serialized state dictionary. *)
Definition state_dict (m : module A) : gmap string (tensor A) := list_to_map m.

(** One entry of [load_state_dict]: a key with an equally sized tensor is
    copied in, every other parameter keeps its value. *)
Definition load_entry (sd : gmap string (tensor A)) (kp : string * tensor A)
  : string * tensor A :=
  match sd !! kp.1 with
  | Some t => if same_size t kp.2 then (kp.1, t) else kp
  | None => kp
  end.

(** Keys of the module that [sd] holds with another size. *)
Definition size_mismatches (m : module A) (sd : gmap string (tensor A)) : list string :=
  omap (fun kp : string * tensor A =>
          match sd !! kp.1 with
          | Some t => if same_size t kp.2 then None else Some kp.1
          | None => None
          end) m.

(** [m.load_state_dict(sd, strict=False)]: missing and unexpected keys are
    tolerated, a size mismatch on a common key raises [RuntimeError]. (The
    one mismatch torch lets through, a one-dimensional saved tensor for a
    zero-dimensional parameter, is not modelled.) *)
Definition load_state_dict (m : module A) (sd : gmap string (tensor A)) : result (module A) :=
  match size_mismatches m sd with
  | [] => Ok (load_entry sd <$> m)
  | _ :: _ => Raise (RuntimeError "size mismatch")
  end.

(** An optimizer with one parameter group: its current [lr], the
    [initial_lr] a scheduler records in the group, the number of parameters
    it drives and its internal buffers. *)
Record optimizer : Type := mkOptimizer {
  lr : Q;
  initial_lr : option Q;
  n_params : nat;
  buffers : Buf
}.

(** [opt.load_state_dict(saved)]: the group and the buffers are replaced by
    the saved ones; a group of another length is a [ValueError]. *)
Definition optimizer_load_state_dict (opt saved : optimizer) : result optimizer :=
  if bool_decide (n_params opt = n_params saved)
  then Ok saved
  else Raise (ValueError "parameter group size").

(** The record handed to [save_checkpoint]. *)
Record checkpoint : Type := mkCheckpoint {
  ck_epoch : Z;
  ck_state_dict : gmap string (tensor A);
  ck_best_state_dict : gmap string (tensor A);
  ck_perf : Q;
  ck_optimizer : optimizer;
  ck_discriminator_state_dict : gmap string (tensor A);
  ck_discriminator_optimizer : optimizer
}.

End Objects.
Arguments optimizer : clear implicits.
Arguments checkpoint : clear implicits.
End Torch.
Export Torch.

(** ** Learning-rate schedule ([torch.optim.lr_scheduler.MultiStepLR])

    The scheduler as torch has it since release 1.4: [step()] without an
    epoch argument derives the new rate from the rate currently stored in
    the optimizer's parameter group. *)

Module Sched.
Section Sched.
Context {Buf : Type}.

Record scheduler : Type := mkScheduler {
  milestones : list Z;
  gamma : Q;
  base_lr : Q;
  sched_last_epoch : Z
}.

(** [Counter(milestones)[e]] *)
Definition multiplicity (e : Z) (ms : list Z) : nat :=
  length (filter (fun m => m = e) ms).

(** [lr_scheduler.step()]: the epoch counter advances and, at a milestone,
    the group's current [lr] is multiplied by [gamma ** multiplicity]. *)
Definition step (so : scheduler * optimizer Buf) : scheduler * optimizer Buf :=
  let '(s, o) := so in
  let e := (sched_last_epoch s + 1)%Z in
  let s' := mkScheduler (milestones s) (gamma s) (base_lr s) e in
  let new_lr :=
    match multiplicity e (milestones s) with
    | O => lr o
    | S _ as c => (lr o * gamma s ^ Z.of_nat c)%Q
    end in
  (s', mkOptimizer new_lr (initial_lr o) (n_params o) (buffers o)).

(** [MultiStepLR(optimizer, milestones, gamma, last_epoch=-1)]: the group
    gets [initial_lr] unless it already has one, and the constructor takes
    the initial step to epoch 0. *)
Definition MultiStepLR (o : optimizer Buf) (ms : list Z) (g : Q) : scheduler * optimizer Buf :=
  let init := default (lr o) (initial_lr o) in
  let o' := mkOptimizer (lr o) (Some init) (n_params o) (buffers o) in
  step (mkScheduler ms g init (-1), o').

(** [for i in range(n): lr_scheduler.step()] *)
Definition replay (n : Z) (so : scheduler * optimizer Buf) : scheduler * optimizer Buf :=
  foldl (fun acc _ => step acc) so (range n).

End Sched.
End Sched.

(** ** The driver [main] (lines 66-237) *)

Module Main.
Section Main.
Context {A Buf : Type}.

(** The fields of [cfg] the driver reads. *)
Record config : Type := mkConfig {
  AUTO_RESUME : bool;
  BEGIN_EPOCH : Z;
  END_EPOCH : Z;
  LR_STEP : list Z;
  LR_FACTOR : Q
}.

(** The functions of [core.function] the driver calls. [core_train epoch lr
    model buffers] is [train(...)] running with the generator optimizer at
    learning rate [lr]; [core_validate epoch model] is the metric returned by
    [validate(...)] in that epoch. *)
Record collaborators : Type := mkCollaborators {
  core_train : Z -> Q -> module A -> Buf -> module A * Buf;
  core_validate : Z -> module A -> Q
}.

(** What a run prints and writes, in order. *)
Inductive event : Type :=
  | Skipped (k : string)
  | Trained (epoch : Z) (rate : Q)
  | SavedCheckpoint (epoch : Z) (perf : Q) (is_best : bool)
  | BestSoFar (perf : Q) (perf_01 : pynum)
  | SavedFinal.

(** The local variables of [main] together with the checkpoint file and the
    output produced so far. *)
Record run : Type := mkRun {
  best_perf : Q;
  best_perf_01 : pynum;
  best_model : bool;
  last_epoch : Z;
  begin_epoch : Z;
  model : module A;
  discriminator : module A;
  optimizer_generator : optimizer Buf;
  optimizer_discriminator : optimizer Buf;
  checkpoint_file : option (checkpoint A Buf);
  log : list event
}.

(** Lines 126-134: the state before any resume. *)
Definition initial_run (cfg : config) (model0 discriminator0 : module A)
    (optimizer_generator0 optimizer_discriminator0 : optimizer Buf)
    (file : option (checkpoint A Buf)) : run :=
  mkRun 0 (PyFloat 0) false (-1) (BEGIN_EPOCH cfg)
        model0 discriminator0 optimizer_generator0 optimizer_discriminator0
        file [].

(** One iteration of the loops at lines 147-151 and 157-161: a key that the
    saved dictionary holds with the same size goes into the new dictionary,
    any other key is printed as skipped. *)
Definition merge_step (saved : gmap string (tensor A))
    (acc : gmap string (tensor A) * list event) (kp : string * tensor A)
  : gmap string (tensor A) * list event :=
  match saved !! kp.1 with
  | Some t =>
      if same_size kp.2 t
      then (<[kp.1 := t]> acc.1, acc.2)
      else (acc.1, acc.2 ++ [Skipped kp.1])
  | None => (acc.1, acc.2 ++ [Skipped kp.1])
  end.

Definition merge_state_dict (live : module A) (saved : gmap string (tensor A))
  : gmap string (tensor A) * list event :=
  foldl (merge_step saved) (∅, []) live.

(** Lines 145-153 for one module: merge, then load without [strict]. *)
Definition partial_load (live : module A) (saved : gmap string (tensor A))
  : result (module A) * list event :=
  let merged := merge_state_dict live saved in
  (load_state_dict live merged.1, merged.2).

(** Lines 138-171: the body of [if cfg.AUTO_RESUME and os.path.exists(...)]. *)
Definition resume (ck : checkpoint A Buf) (r : run) : result run :=
  (* lines 145-153 *)
  let loaded := partial_load (model r) (ck_state_dict ck) in
  bind loaded.1 (fun model1 =>
  (* lines 155-161 *)
  let new_discriminator_dict :=
    merge_state_dict (discriminator r) (ck_discriminator_state_dict ck) in
  (* line 163: [model.load_state_dict(new_discriminator_dict, strict=False)] *)
  bind (load_state_dict model1 new_discriminator_dict.1) (fun model2 =>
  bind (optimizer_load_state_dict (optimizer_generator r) (ck_optimizer ck)) (fun og =>
  bind (optimizer_load_state_dict (optimizer_discriminator r)
          (ck_discriminator_optimizer ck)) (fun od =>
  Ok (mkRun (ck_perf ck) (best_perf_01 r) (best_model r) (ck_epoch ck) (ck_epoch ck)
            model2 (discriminator r) og od (checkpoint_file r)
            (log r ++ loaded.2 ++ new_discriminator_dict.2)))))).

(** Modelled from the spec: [save_checkpoint] of [utils.utils] is not among
    the sources; following the Checkpoint Store it writes the one rolling
    checkpoint record, replacing the previous one. *)
Definition save_checkpoint (states : checkpoint A Buf) (is_best : bool)
  : option (checkpoint A Buf) * list event :=
  (Some states, [SavedCheckpoint (ck_epoch states) (ck_perf states) is_best]).

(** [perf_indicator >= best_perf] *)
Definition ge_best (perf_indicator best : Q) : bool := Qle_bool best perf_indicator.

(** Lines 186-229: one iteration of the epoch loop. The scheduler shares the
    generator optimizer with the run. *)
Definition epoch_body (E : collaborators) (acc : Sched.scheduler * run) (epoch : Z)
  : Sched.scheduler * run :=
  let '(s, r) := acc in
  let '(s1, og1) := Sched.step (s, optimizer_generator r) in
  let '(model1, buf1) := core_train E epoch (lr og1) (model r) (buffers og1) in
  let og2 := mkOptimizer (lr og1) (initial_lr og1) (n_params og1) buf1 in
  let log1 := log r ++ [Trained epoch (lr og1)] in
  let perf_indicator := core_validate E epoch model1 in
  let perf_indicator_01 := PyInt 0 in
  if ge_best perf_indicator (best_perf r)
  then
    let saved :=
      save_checkpoint
        (mkCheckpoint (epoch + 1) (state_dict model1) (state_dict model1)
           perf_indicator og2 (state_dict (discriminator r))
           (optimizer_discriminator r)) true in
    (s1, mkRun perf_indicator perf_indicator_01 true (last_epoch r) (begin_epoch r)
               model1 (discriminator r) og2 (optimizer_discriminator r) saved.1
               (log1 ++ saved.2 ++ [BestSoFar perf_indicator perf_indicator_01]))
  else
    (s1, mkRun (best_perf r) (best_perf_01 r) false (last_epoch r) (begin_epoch r)
               model1 (discriminator r) og2 (optimizer_discriminator r)
               (checkpoint_file r)
               (log1 ++ [BestSoFar (best_perf r) (best_perf_01 r)])).

(** Lines 173-229: scheduler construction, replay, epoch loop. *)
Definition train_loop (E : collaborators) (cfg : config) (r : run) : Sched.scheduler * run :=
  let '(s0, og0) := Sched.MultiStepLR (optimizer_generator r) (LR_STEP cfg) (LR_FACTOR cfg) in
  let '(s1, og1) := Sched.replay (last_epoch r) (s0, og0) in
  let r1 := mkRun (best_perf r) (best_perf_01 r) (best_model r) (last_epoch r)
                  (begin_epoch r) (model r) (discriminator r) og1
                  (optimizer_discriminator r) (checkpoint_file r) (log r) in
  foldl (epoch_body E) (s1, r1) (range2 (begin_epoch r1) (END_EPOCH cfg)).

(** Lines 231-237: the final generator weights are written. *)
Definition save_final (r : run) : run :=
  mkRun (best_perf r) (best_perf_01 r) (best_model r) (last_epoch r) (begin_epoch r)
        (model r) (discriminator r) (optimizer_generator r) (optimizer_discriminator r)
        (checkpoint_file r) (log r ++ [SavedFinal]).

(** The learning rate with which a run trained epoch [n], read off its log. *)
Fixpoint rate_in_epoch (n : Z) (l : list event) : option Q :=
  match l with
  | [] => None
  | Trained e rate :: l' => if bool_decide (e = n) then Some rate else rate_in_epoch n l'
  | _ :: l' => rate_in_epoch n l'
  end.

(** The secondary metric of a run is zero: the variable [best_perf_01] and
    every value printed for it. *)
Definition secondary_zero (r : run) : Prop :=
  num_value (best_perf_01 r) = 0%Q
  /\ Forall (fun e => match e with
                     | BestSoFar _ perf_01 => num_value perf_01 = 0%Q
                     | _ => True
                     end) (log r).

(** [main]: [file] is the content of [checkpoint.pth] when it exists. *)
Definition main (E : collaborators) (cfg : config) (model0 discriminator0 : module A)
    (optimizer_generator0 optimizer_discriminator0 : optimizer Buf)
    (file : option (checkpoint A Buf)) : result run :=
  let r0 := initial_run cfg model0 discriminator0 optimizer_generator0
              optimizer_discriminator0 file in
  bind (match file with
        | Some ck => if AUTO_RESUME cfg then resume ck r0 else Ok r0
        | None => Ok r0
        end) (fun r1 =>
  Ok (save_final (train_loop E cfg r1).2)).

End Main.
Arguments config : clear implicits.
Arguments collaborators : clear implicits.
Arguments event : clear implicits.
Arguments run : clear implicits.
End Main.

(** ** The adversarial epoch [train_GAN] (lines 276-317) *)

Module TrainGAN.

Inductive net : Type := Generator | Discriminator.

(** What [train_GAN] does to its collaborators and prints, in order. *)
Inductive event : Type :=
  | PrintEpoch
  | TrainMode (n : net)
  | ZeroGrad (n : net)
  | Forward (n : net)
  | Backward (n : net)
  | OptStep (n : net)
  | PrintShapes
  | Report (loss_gen loss_disc : R).

(** Names bound at module level when [train_GAN] runs. *)
Definition module_globals : list string :=
  ["absolute_import"; "division"; "print_function"; "argparse"; "os"; "pprint";
   "shutil"; "torch"; "cudnn"; "transforms"; "SummaryWriter"; "cfg";
   "update_config"; "JointsMSELoss"; "train"; "validate"; "get_optimizer";
   "save_checkpoint"; "create_logger"; "get_model_summary"; "dataset"; "models";
   "get_omnipose"; "get_pose_net"; "Discriminator"; "resize"; "warnings"; "tqdm";
   "parse_args"; "main"; "_get_loss_disc"; "get_loss_disc"; "get_loss_gen";
   "_resize_images_batch"; "train_GAN"; "arg";
   "__name__"; "__doc__"; "__file__"; "__builtins__"; "__spec__"; "__loader__";
   "__package__"].

(** The built-in functions and constants of Python 3. *)
Definition builtins : list string :=
  ["abs"; "all"; "any"; "ascii"; "bin"; "bool"; "breakpoint"; "bytearray";
   "bytes"; "callable"; "chr"; "classmethod"; "compile"; "complex"; "delattr";
   "dict"; "dir"; "divmod"; "enumerate"; "eval"; "exec"; "filter"; "float";
   "format"; "frozenset"; "getattr"; "globals"; "hasattr"; "hash"; "help"; "hex";
   "id"; "input"; "int"; "isinstance"; "issubclass"; "iter"; "len"; "list";
   "locals"; "map"; "max"; "memoryview"; "min"; "next"; "object"; "oct"; "open";
   "ord"; "pow"; "print"; "property"; "range"; "repr"; "reversed"; "round";
   "set"; "setattr"; "slice"; "sorted"; "staticmethod"; "str"; "sum"; "super";
   "tuple"; "type"; "vars"; "zip"; "__import__";
   "True"; "False"; "None"; "Ellipsis"; "NotImplemented"; "__debug__"].

Section TrainGAN.
Context {World Meta : Type}.

(** One element of the data loader. *)
Record batch : Type := mkBatch {
  b_input : tensor R;
  b_target : tensor R;
  b_target_weight : tensor R;
  b_meta : Meta
}.

(** The values the local variables of [train_GAN] hold. *)
Inductive value : Type :=
  | VInt (z : Z)
  | VFloat (x : R)
  | VTensor (t : tensor R)
  | VMeta (m : Meta)
  | VGlobal (name : string).

(** The models, the optimizers and autograd, as [train_GAN] uses them. The
    weights, the gradients and the recorded graphs live in [World]. *)
Record torch_api : Type := mkApi {
  set_train : net -> World -> World;
  forward : net -> tensor R -> World -> result (tensor R) * World;
  torch_cat : list (tensor R) -> nat -> result (tensor R);
  zero_grad : net -> World -> World;
  backward : net -> World -> World;
  opt_step : net -> World -> World
}.

Record state : Type := mkState {
  world : World;
  locals : gmap string value;
  trace : list event
}.

(** Computations that read and write the state and may raise. *)
Definition M (T : Type) : Type := state -> result T * state.

Definition ret {T} (v : T) : M T := fun s => (Ok v, s).

Definition raise {T} (e : exn) : M T := fun s => (Raise e, s).

Definition mbind {T U} (m : M T) (k : T -> M U) : M U :=
  fun s =>
    match m s with
    | (Ok v, s') => k v s'
    | (Raise e, s') => (Raise e, s')
    end.

Definition lift {T} (r : result T) : M T := fun s => (r, s).

(** [x = v] *)
Definition assign (x : string) (v : value) : M unit :=
  fun s => (Ok tt, mkState (world s) (<[x := v]> (locals s)) (trace s)).

(** Reading a local variable of the function. *)
Definition load_fast (x : string) : M value :=
  fun s =>
    match locals s !! x with
    | Some v => (Ok v, s)
    | None => (Raise (UnboundLocalError x), s)
    end.

(** Reading a name the function never assigns: module globals, then
    built-ins. *)
Definition load_global (x : string) : M value :=
  if bool_decide (x ∈ module_globals ++ builtins)
  then ret (VGlobal x)
  else raise (NameError x).

Definition emit (e : event) : M unit :=
  fun s => (Ok tt, mkState (world s) (locals s) (trace s ++ [e])).

Definition on_world (f : World -> World) : M unit :=
  fun s => (Ok tt, mkState (f (world s)) (locals s) (trace s)).

Definition as_tensor (v : value) : M (tensor R) :=
  match v with
  | VTensor t => ret t
  | _ => raise (TypeError "tensor expected")
  end.

(** [acc + x] for a Python number [acc] and a float [x]. *)
Definition py_add (acc : value) (x : R) : M value :=
  match acc with
  | VInt z => ret (VFloat (IZR z + x))
  | VFloat y => ret (VFloat (y + x))
  | _ => raise (TypeError "unsupported operand for +")
  end.

(** [a / b], true division. *)
Definition py_truediv (a b : value) : M R :=
  match a, b with
  | VInt x, VInt y =>
      if bool_decide (y = 0%Z) then raise ZeroDivisionError else ret (IZR x / IZR y)%R
  | VFloat x, VInt y =>
      if bool_decide (y = 0%Z) then raise ZeroDivisionError else ret (x / IZR y)%R
  | _, _ => raise (TypeError "unsupported operand for /")
  end.

Definition call_forward (E : torch_api) (n : net) (x : tensor R) : M (tensor R) :=
  fun s =>
    let '(r, w) := forward E n x (world s) in
    (r, mkState w (locals s) (trace s ++ [Forward n])).

(** A zero-dimensional tensor and [t.item()]. *)
Definition scalar_tensor (x : R) : tensor R := mkTensor [] [x].

Definition item (v : value) : M R :=
  match v with
  | VTensor t =>
      match data t with
      | [x] => ret x
      | _ => raise (ValueError "only one element tensors can be converted")
      end
  | _ => raise (TypeError "tensor expected")
  end.

Declare Scope py_scope.
Delimit Scope py_scope with py.
Notation "x ← y ; z" := (mbind y (fun x => z))
  (at level 20, y at level 100, z at level 200, only parsing) : py_scope.
Notation "x ;; z" := (mbind x (fun _ => z))
  (at level 100, z at level 200, only parsing, right associativity) : py_scope.
Local Open Scope py_scope.

(** Lines 295-305: the discriminator phase of one batch. *)
Definition discriminator_phase (E : torch_api) : M unit :=
  on_world (zero_grad E Discriminator);; emit (ZeroGrad Discriminator);;
  input ← load_fast "input"; input ← as_tensor input;
  outputs ← call_forward E Generator input;
  assign "outputs" (VTensor outputs);;
  load_fast "input";; load_fast "target";; load_fast "outputs";; emit PrintShapes;;
  target ← load_fast "target"; target ← as_tensor target;
  input ← load_fast "input"; input ← as_tensor input;
  real_in ← lift (torch_cat E [target; input] 1);
  disc_real ← call_forward E Discriminator real_in;
  assign "disc_real" (VTensor disc_real);;
  outputs ← load_fast "outputs"; outputs ← as_tensor outputs;
  input_resized ← load_global "input_resized"; input_resized ← as_tensor input_resized;
  fake_in ← lift (torch_cat E [outputs; input_resized] 1);
  disc_fake ← call_forward E Discriminator fake_in;
  assign "disc_fake" (VTensor disc_fake);;
  disc_fake ← load_fast "disc_fake"; disc_fake ← as_tensor disc_fake;
  disc_real ← load_fast "disc_real"; disc_real ← as_tensor disc_real;
  assign "loss_disc" (VTensor (scalar_tensor (Loss.get_loss_disc disc_fake disc_real)));;
  avg_disc_loss ← load_fast "avg_disc_loss";
  loss_disc ← load_fast "loss_disc"; x ← item loss_disc;
  avg_disc_loss ← py_add avg_disc_loss x;
  assign "avg_disc_loss" avg_disc_loss;;
  load_fast "loss_disc";;
  on_world (backward E Discriminator);; emit (Backward Discriminator);;
  on_world (opt_step E Discriminator);; emit (OptStep Discriminator).

(** Lines 307-315: the generator phase of the same batch. *)
Definition generator_phase (E : torch_api) : M unit :=
  on_world (zero_grad E Generator);; emit (ZeroGrad Generator);;
  input ← load_fast "input"; input ← as_tensor input;
  outputs ← call_forward E Generator input;
  assign "outputs" (VTensor outputs);;
  outputs ← load_fast "outputs"; outputs ← as_tensor outputs;
  input ← load_fast "input"; input ← as_tensor input;
  fake_in ← lift (torch_cat E [outputs; input] 1);
  disc_fake ← call_forward E Discriminator fake_in;
  assign "disc_fake" (VTensor disc_fake);;
  outputs ← load_fast "outputs"; outputs ← as_tensor outputs;
  disc_fake ← load_fast "disc_fake"; disc_fake ← as_tensor disc_fake;
  target ← load_fast "target"; target ← as_tensor target;
  match Loss.get_loss_gen outputs disc_fake target with
  | None => raise (RuntimeError "tensor sizes must match")
  | Some loss => assign "loss_gen" (VTensor (scalar_tensor loss))
  end;;
  avg_gen_loss ← load_fast "avg_gen_loss";
  loss_gen ← load_fast "loss_gen"; x ← item loss_gen;
  avg_gen_loss ← py_add avg_gen_loss x;
  assign "avg_gen_loss" avg_gen_loss;;
  load_fast "loss_gen";;
  on_world (backward E Generator);; emit (Backward Generator);;
  on_world (opt_step E Generator);; emit (OptStep Generator).

(** [for i, (input, target, target_weight, meta) in enumerate(tbar): ...] *)
Fixpoint for_enumerate (i : Z) (tbar : list batch) (body : M unit) : M unit :=
  match tbar with
  | [] => ret tt
  | b :: tbar' =>
      assign "i" (VInt i);;
      assign "input" (VTensor (b_input b));;
      assign "target" (VTensor (b_target b));;
      assign "target_weight" (VTensor (b_target_weight b));;
      assign "meta" (VMeta (b_meta b));;
      body;;
      for_enumerate (i + 1) tbar' body
  end.

(** Line 317: the f-string evaluates [avg_gen_loss / i], then
    [avg_disc_loss / i]. *)
Definition report : M unit :=
  avg_gen_loss ← load_fast "avg_gen_loss"; i ← load_fast "i";
  g ← py_truediv avg_gen_loss i;
  avg_disc_loss ← load_fast "avg_disc_loss"; i ← load_fast "i";
  d ← py_truediv avg_disc_loss i;
  emit (Report g d).

(** The body of [train_GAN]. [train_loader] is the sequence of batches that
    [tqdm(train_loader)] yields; the models and the optimizers passed to the
    function are reached through [E] and live in the initial [world]. *)
Definition train_GAN (E : torch_api) (train_loader : list batch) : M unit :=
  emit PrintEpoch;;
  on_world (set_train E Generator);; emit (TrainMode Generator);;
  on_world (set_train E Discriminator);; emit (TrainMode Discriminator);;
  assign "avg_disc_loss" (VInt 0);;
  assign "avg_gen_loss" (VInt 0);;
  for_enumerate 0 train_loader (discriminator_phase E;; generator_phase E);;
  report.

(** The state in which the body starts: no local variable assigned yet. *)
Definition entry (w : World) : state := mkState w ∅ [].

(** The optimizer updates among the events of a run. *)
Definition opt_steps (tr : list event) : list net :=
  omap (fun e => match e with OptStep n => Some n | _ => None end) tr.

End TrainGAN.
Arguments batch : clear implicits.
Arguments value : clear implicits.
Arguments torch_api : clear implicits.
Arguments state : clear implicits.
End TrainGAN.

(** ** The loss formulas as the specification words them *)

Module SpecLoss.
Local Open Scope R_scope.

(** The stabilizer ε = 1e-5. *)
Definition epsilon : R := / 10 ^ 5.

(** The mean of a family of numbers. *)
Definition average (xs : list R) : R := fold_right Rplus 0 xs / INR (length xs).

(** -mean(log(ε + realOutput)) + (-mean(log(ε + 1 − fakeOutput))) *)
Definition discriminatorLoss (realOutput fakeOutput : list R) : R :=
  - average (List.map (fun x => ln (epsilon + x)) realOutput)
  + - average (List.map (fun y => ln (epsilon + 1 - y)) fakeOutput).

(** mean((generatorOutput − target)^2) + (−mean(log(ε + fakeOutput))) *)
Definition generatorLoss (generatorOutput fakeOutput target : list R) : R :=
  average (List.map (fun ot : R * R => (ot.1 - ot.2) * (ot.1 - ot.2))
             (combine generatorOutput target))
  + - average (List.map (fun y => ln (epsilon + y)) fakeOutput).

(** Every entry strictly between [lo] and [hi]. *)
Definition all_within (lo hi : R) (xs : list R) : Prop :=
  Forall (fun x => lo < x < hi) xs.

End SpecLoss.

(** ** Compatibility of state dictionaries, as the specification words it *)

Module SpecLoader.
Section SpecLoader.
Context {A : Type}.

(** A saved dictionary is compatible with a live parameter at a key when it
    holds the key with a tensor of identical shape; [taken] is that tensor. *)
Definition taken (saved : gmap string (tensor A)) (kp : string * tensor A)
  : option (tensor A) :=
  match saved !! kp.1 with
  | Some t => if bool_decide (size kp.2 = size t) then Some t else None
  | None => None
  end.

(** The live module after a partial load. *)
Definition merged_module (live : module A) (saved : gmap string (tensor A)) : module A :=
  (fun kp => (kp.1, default kp.2 (taken saved kp))) <$> live.

(** The keys reported as skipped, in the order of the live module. *)
Definition skipped_keys (live : module A) (saved : gmap string (tensor A)) : list string :=
  omap (fun kp => match taken saved kp with Some _ => None | None => Some kp.1 end) live.

End SpecLoader.
End SpecLoader.

(** ** Resizing a batch of images ([_resize_images_batch], lines 265-272) *)

Module Resize.

(** The exceptions of this function: the ones of [Py], and [IndexError]. *)
Inductive py_exn : Type :=
  | Builtin (e : exn)
  | IndexError (what : string).

Inductive outcome (T : Type) : Type :=
  | Returned (v : T)
  | Raised (e : py_exn).
Arguments Returned {T} _.
Arguments Raised {T} _.

Definition obind {T U} (o : outcome T) (k : T -> outcome U) : outcome U :=
  match o with
  | Returned v => k v
  | Raised e => Raised e
  end.

Section Resize.
Context {A : Type}.

(** The number of entries of a tensor of the given size. *)
Definition numel (dims : list nat) : nat := foldr Nat.mul 1%nat dims.

(** [t.shape[0]] *)
Definition shape0 (t : tensor A) : outcome nat :=
  match size t with
  | [] => Raised (IndexError "tuple index out of range")
  | n :: _ => Returned n
  end.

(** [t[i]] for a non-negative index: the [i]-th slice along the first
    dimension. *)
Definition getitem (t : tensor A) (i : nat) : outcome (tensor A) :=
  match size t with
  | [] => Raised (IndexError "invalid index of a 0-dim tensor")
  | n :: dims =>
      if bool_decide (i < n)%nat
      then Returned (mkTensor dims (take (numel dims) (drop (i * numel dims) (data t))))
      else Raised (IndexError "index out of range")
  end.

(** [torch.stack(ts, dim=0)]: the list must be non-empty and its tensors of
    one size. *)
Definition stack (ts : list (tensor A)) : outcome (tensor A) :=
  match ts with
  | [] => Raised (Builtin (RuntimeError "stack expects a non-empty TensorList"))
  | t0 :: _ =>
      if forallb (fun t => bool_decide (size t = size t0)) ts
      then Returned (mkTensor (length ts :: size t0) (concat (data <$> ts)))
      else Raised (Builtin (RuntimeError "stack expects each tensor to be equal size"))
  end.

(** The loop of lines 268-270; [resize] is [torchvision]'s function. *)
Fixpoint resize_loop (resize : tensor A -> list nat -> outcome (tensor A))
    (images : tensor A) (dest_size : list nat) (indices : list nat)
    (res : list (tensor A)) : outcome (list (tensor A)) :=
  match indices with
  | [] => Returned res
  | i :: rest =>
      obind (getitem images i) (fun cur_image =>
      obind (resize cur_image dest_size) (fun resized =>
      resize_loop resize images dest_size rest (res ++ [resized])))
  end.

(** [_resize_images_batch(images, dest_size)] *)
Definition _resize_images_batch (resize : tensor A -> list nat -> outcome (tensor A))
    (images : tensor A) (dest_size : list nat) : outcome (tensor A) :=
  obind (shape0 images) (fun batch_size =>
  obind (resize_loop resize images dest_size (seq 0 batch_size) []) stack).

End Resize.
End Resize.

(** ** Reading a run's log and a milestone list *)

Module Observe.
Import Main.

(** The epochs a run trained, in order. *)
Definition trained_epochs (l : list event) : list Z :=
  omap (fun e => match e with Trained n _ => Some n | _ => None end) l.


(** The PCKh@0.5 values of the "Best so far" lines, in order. *)
Definition best_values (l : list event) : list Q :=
  omap (fun e => match e with BestSoFar p _ => Some p | _ => None end) l.

(** The epochs for which a checkpoint was written, in order. *)
Definition checkpoint_epochs (l : list event) : list Z :=
  omap (fun e => match e with SavedCheckpoint n _ _ => Some n | _ => None end) l.

(** How often the final state was written. *)
Definition final_saves (l : list event) : nat :=
  length (omap (fun e => match e with SavedFinal => Some tt | _ => None end) l).

(** Every value is at most every later value. *)
Fixpoint nondecreasing (l : list Q) : Prop :=
  match l with
  | [] => True
  | x :: l' => Forall (fun y => (x <= y)%Q) l' /\ nondecreasing l'
  end.


End Observe.

(** ** Reading the local variables of [train_GAN] *)

Module TrainGANObserve.
Import TrainGAN.


End TrainGANObserve.

(** * Properties *)

(** ** Loss engine *)

Module LossFacts.
Import Loss SpecLoss.
Local Open Scope R_scope.

Lemma epsilon_eq : eps_default = epsilon.
Proof. unfold eps_default, epsilon. simpl. lra. Qed.

Lemma epsilon_pos : 0 < epsilon.
Proof. rewrite <- epsilon_eq. unfold eps_default. lra. Qed.

Lemma Rsum_fold (l : list R) : Rsum l = fold_right Rplus 0 l.
Proof. induction l as [|x l IH]; simpl; [reflexivity | now rewrite IH]. Qed.

Lemma mean_tmap (f : R -> R) (t : tensor R) :
  mean (tmap f t) = average (List.map f (data t)).
Proof.
  unfold mean, average, tmap. simpl. now rewrite Rsum_fold.
Qed.

Lemma mean_log_scalar_add (s : R) (t : tensor R) :
  mean (torch_log (scalar_add s t)) = average (List.map (fun x => ln (s + x)) (data t)).
Proof.
  unfold torch_log, scalar_add. rewrite mean_tmap. simpl.
  now rewrite List.map_map.
Qed.

Lemma mean_log_scalar_sub (s : R) (t : tensor R) :
  mean (torch_log (scalar_sub s t)) = average (List.map (fun x => ln (s - x)) (data t)).
Proof.
  unfold torch_log, scalar_sub. rewrite mean_tmap. simpl.
  now rewrite List.map_map.
Qed.

Lemma zip_sub_sq (a b : list R) :
  List.map (fun x => x ^ 2) (zip_sub a b)
  = List.map (fun ot : R * R => (ot.1 - ot.2) * (ot.1 - ot.2)) (combine a b).
Proof.
  revert b. induction a as [|x a IH]; intros [|y b]; simpl; try reflexivity.
  rewrite IH. f_equal. lra.
Qed.

(** The helper's two branches, by the value of the flag. *)
Lemma get_loss_disc_helper_real (t : tensor R) (e : R) :
  _get_loss_disc t true e = - average (List.map (fun x => ln (e + x)) (data t)).
Proof. unfold _get_loss_disc. now rewrite mean_log_scalar_add. Qed.

Lemma get_loss_disc_helper_fake (t : tensor R) (e : R) :
  _get_loss_disc t false e = - average (List.map (fun x => ln (e + 1 - x)) (data t)).
Proof. unfold _get_loss_disc. now rewrite mean_log_scalar_sub. Qed.

Lemma get_loss_disc_average (disc_fake disc_real : tensor R) :
  get_loss_disc disc_fake disc_real
  = discriminatorLoss (data disc_real) (data disc_fake).
Proof.
  unfold get_loss_disc, discriminatorLoss.
  rewrite get_loss_disc_helper_real, get_loss_disc_helper_fake, epsilon_eq.
  apply Rplus_comm.
Qed.

(** C3: [get_loss_disc], called with the fake output first and the real
    output second, is the specification's
    -mean(log(ε + real)) + (-mean(log(ε + 1 − fake))) with ε = 1e-5, and it is
    the sum of the two calls of the shared helper, [real=False] on the fake
    output and [real=True] on the real output. *)
Theorem get_loss_disc_formula (fakeOutput realOutput : tensor R) :
  get_loss_disc fakeOutput realOutput
  = discriminatorLoss (data realOutput) (data fakeOutput)
  /\ get_loss_disc fakeOutput realOutput
     = _get_loss_disc realOutput true (1 / 100000)
       + _get_loss_disc fakeOutput false (1 / 100000).
Proof.
  split.
  - apply get_loss_disc_average.
  - unfold get_loss_disc, eps_default. apply Rplus_comm.
Qed.

(** C4: for a generator output and a target of one size, [get_loss_gen] is
    the specification's mean((output − target)^2) + (−mean(log(ε + fake))),
    with the same ε = 1e-5. *)
Theorem get_loss_gen_formula (outputs disc_fake target : tensor R) :
  size outputs = size target ->
  length (data outputs) = length (data target) ->
  get_loss_gen outputs disc_fake target
  = Some (generatorLoss (data outputs) (data disc_fake) (data target)).
Proof.
  intros Hsize Hlen. unfold get_loss_gen, tensor_sub, same_size.
  rewrite !bool_decide_eq_true_2 by assumption. cbn [andb mbind option_bind].
  f_equal. unfold generatorLoss, tensor_sq.
  rewrite mean_tmap. cbn [data]. rewrite zip_sub_sq.
  now rewrite get_loss_disc_helper_real, epsilon_eq.
Qed.

Lemma get_loss_gen_formula_witness :
  let outputs := mkTensor [2%nat] [1; 0] in
  let target := mkTensor [2%nat] [0; 0] in
  let disc_fake := mkTensor [1%nat] [/ 2] in
  size outputs = size target
  /\ length (data outputs) = length (data target)
  /\ get_loss_gen outputs disc_fake target
     = Some (generatorLoss (data outputs) (data disc_fake) (data target)).
Proof.
  cbv zeta. split; [reflexivity | split; [reflexivity |]].
  apply (get_loss_gen_formula (mkTensor [2%nat] [1; 0]) (mkTensor [1%nat] [/ 2])
           (mkTensor [2%nat] [0; 0])); reflexivity.
Defined.

(** *** Sign of the discriminator loss *)

Lemma average_singleton (x : R) : average [x] = x.
Proof. unfold average. simpl. field. Qed.

Lemma fold_right_Rplus_neg (l : list R) :
  Forall (fun x => x < 0) l -> l <> [] -> fold_right Rplus 0 l < 0.
Proof.
  induction 1 as [|x l Hx Hl IH]; intros Hne; [congruence |].
  simpl. destruct l as [|y l].
  - simpl. lra.
  - assert (fold_right Rplus 0 (y :: l) < 0) by (apply IH; congruence). lra.
Qed.

Lemma average_neg (l : list R) :
  Forall (fun x => x < 0) l -> l <> [] -> average l < 0.
Proof.
  intros Hall Hne. unfold average.
  assert (Hs := fold_right_Rplus_neg l Hall Hne).
  assert (Hn : 0 < INR (length l)).
  { apply lt_0_INR. destruct l; [congruence | simpl; lia]. }
  assert (Hi := Rinv_0_lt_compat _ Hn).
  unfold Rdiv. nra.
Qed.

Lemma Forall_map_neg (P : R -> Prop) (f : R -> R) (l : list R) :
  Forall P l -> (forall x, P x -> f x < 0) -> Forall (fun y => y < 0) (List.map f l).
Proof.
  intros Hall Hf. induction Hall as [|x l Hx _ IH]; simpl; constructor; auto.
Qed.

Lemma ln_neg (x : R) : 0 < x < 1 -> ln x < 0.
Proof. intros [H0 H1]. rewrite <- ln_1. now apply ln_increasing. Qed.

Lemma ln_pos (x : R) : 1 < x -> 0 < ln x.
Proof. intros H. rewrite <- ln_1. apply ln_increasing; lra. Qed.

(** The claim of C5 as worded fails: a real output of 0.999999 and a fake
    output of 0.000001 lie strictly inside (0,1), and the loss is negative. *)
Lemma get_loss_disc_negative_inside_unit_interval :
  all_within 0 1 [999999 / 1000000]
  /\ all_within 0 1 [1 / 1000000]
  /\ get_loss_disc (mkTensor [1%nat] [1 / 1000000])
                   (mkTensor [1%nat] [999999 / 1000000]) < 0.
Proof.
  split; [| split].
  - constructor; [lra | constructor].
  - constructor; [lra | constructor].
  - rewrite get_loss_disc_average.
    unfold discriminatorLoss. cbn [data List.map].
    rewrite !average_singleton.
    assert (He : epsilon = 1 / 100000) by (symmetry; apply epsilon_eq).
    assert (0 < ln (epsilon + 999999 / 1000000)) by (apply ln_pos; lra).
    assert (0 < ln (epsilon + 1 - 1 / 1000000)) by (apply ln_pos; lra).
    lra.
Qed.

(** C5, amended: for non-empty outputs with every real value inside
    (0, 1 − 2ε) and every fake value inside (2ε, 1), the discriminator loss
    is strictly positive. The loss changes sign where a logarithm's argument
    crosses 1, at a real value of 1 − ε and a fake value of ε; the domain
    stays one further ε away from both, so that every argument is below
    1 − ε and the rounding of the sums, of the order of 1e-7 in single
    precision, cannot lift one to 1. *)
Theorem get_loss_disc_pos (fakeOutput realOutput : tensor R) :
  data realOutput <> [] ->
  data fakeOutput <> [] ->
  all_within 0 (1 - 2 * epsilon) (data realOutput) ->
  all_within (2 * epsilon) 1 (data fakeOutput) ->
  0 < get_loss_disc fakeOutput realOutput.
Proof.
  intros Hr Hf Hreal Hfake.
  rewrite get_loss_disc_average.
  unfold discriminatorLoss.
  assert (He := epsilon_pos).
  assert (average (List.map (fun x => ln (epsilon + x)) (data realOutput)) < 0).
  { apply average_neg.
    - apply (Forall_map_neg _ _ _ Hreal).
      intros x [H0 H1]. apply ln_neg. lra.
    - destruct (data realOutput); [congruence | discriminate]. }
  assert (average (List.map (fun y => ln (epsilon + 1 - y)) (data fakeOutput)) < 0).
  { apply average_neg.
    - apply (Forall_map_neg _ _ _ Hfake).
      intros x [H0 H1]. apply ln_neg. lra.
    - destruct (data fakeOutput); [congruence | discriminate]. }
  lra.
Qed.

Lemma get_loss_disc_pos_witness :
  let realOutput := mkTensor [2%nat] [1 / 2; 9 / 10] in
  let fakeOutput := mkTensor [2%nat] [1 / 2; 1 / 10] in
  data realOutput <> []
  /\ data fakeOutput <> []
  /\ all_within 0 (1 - 2 * epsilon) (data realOutput)
  /\ all_within (2 * epsilon) 1 (data fakeOutput)
  /\ 0 < get_loss_disc fakeOutput realOutput.
Proof.
  cbv zeta.
  assert (He : epsilon = 1 / 100000) by (symmetry; apply epsilon_eq).
  assert (H1 : data (mkTensor [2%nat] [1 / 2; 9 / 10]) <> []) by discriminate.
  assert (H2 : data (mkTensor [2%nat] [1 / 2; 1 / 10]) <> []) by discriminate.
  assert (H3 : all_within 0 (1 - 2 * epsilon) (data (mkTensor [2%nat] [1 / 2; 9 / 10]))).
  { repeat constructor; lra. }
  assert (H4 : all_within (2 * epsilon) 1 (data (mkTensor [2%nat] [1 / 2; 1 / 10]))).
  { repeat constructor; lra. }
  repeat (split; [assumption |]).
  exact (get_loss_disc_pos _ _ H1 H2 H3 H4).
Defined.

End LossFacts.

(** ** Partial state loader *)

Module LoaderFacts.
Import Main SpecLoader.
Section LoaderFacts.
Context {A : Type}.
Implicit Types (live : module A) (saved : gmap string (tensor A)).

Lemma merge_step_fst saved acc kp :
  (merge_step saved acc kp).1
  = match taken saved kp with Some t => <[kp.1 := t]> acc.1 | None => acc.1 end.
Proof.
  unfold merge_step, taken, same_size.
  destruct (saved !! kp.1) as [t|]; [| reflexivity].
  destruct (bool_decide (size kp.2 = size t)); reflexivity.
Qed.

Lemma merge_step_snd saved acc kp :
  (merge_step saved acc kp).2
  = acc.2 ++ match taken saved kp with Some _ => [] | None => [Skipped kp.1] end.
Proof.
  unfold merge_step, taken, same_size.
  destruct (saved !! kp.1) as [t|]; [| reflexivity].
  destruct (bool_decide (size kp.2 = size t)); simpl;
    [now rewrite app_nil_r | reflexivity].
Qed.

(** Keys outside the live module never enter the merged dictionary. *)
Lemma merge_lookup_other live saved acc k :
  k ∉ live.*1 ->
  (foldl (merge_step saved) acc live).1 !! k = acc.1 !! k.
Proof.
  revert acc. induction live as [|kp live IH]; intros acc Hk; [reflexivity |].
  rewrite fmap_cons in Hk. apply not_elem_of_cons in Hk as [Hne Hk].
  simpl. rewrite IH by assumption. rewrite merge_step_fst.
  destruct (taken saved kp); [| reflexivity].
  now apply lookup_insert_ne.
Qed.

(** A key of the live module is merged exactly when it is compatible. *)
Lemma merge_lookup live saved acc kp :
  NoDup live.*1 -> kp ∈ live ->
  (forall k, k ∈ live.*1 -> acc.1 !! k = None) ->
  (foldl (merge_step saved) acc live).1 !! kp.1 = taken saved kp.
Proof.
  revert acc. induction live as [|kp' live IH]; intros acc Hnd Hin Hacc.
  - now apply elem_of_nil in Hin.
  - rewrite fmap_cons in Hnd, Hacc. apply NoDup_cons in Hnd as [Hfresh Hnd].
    simpl. apply elem_of_cons in Hin as [-> | Hin].
    + rewrite merge_lookup_other by assumption. rewrite merge_step_fst.
      destruct (taken saved kp') as [t|] eqn:Ht.
      * apply lookup_insert_eq.
      * apply Hacc. apply list_elem_of_here.
    + apply IH; [assumption | assumption |].
      intros k Hk. rewrite merge_step_fst.
      assert (Hne : kp'.1 <> k) by (intros Heq; apply Hfresh; now rewrite Heq).
      destruct (taken saved kp') as [t|].
      * rewrite lookup_insert_ne by assumption. apply Hacc. now apply list_elem_of_further.
      * apply Hacc. now apply list_elem_of_further.
Qed.

Lemma merge_log live saved acc :
  (foldl (merge_step saved) acc live).2 = acc.2 ++ (Skipped <$> skipped_keys live saved).
Proof.
  revert acc. induction live as [|kp live IH]; intros acc; simpl.
  - now rewrite app_nil_r.
  - rewrite IH, merge_step_snd, <- app_assoc. f_equal.
    unfold skipped_keys. simpl. destruct (taken saved kp); reflexivity.
Qed.

Lemma taken_size saved kp t : taken saved kp = Some t -> size kp.2 = size t.
Proof.
  unfold taken. destruct (saved !! kp.1) as [t'|]; [| discriminate].
  case_bool_decide; [| discriminate]. congruence.
Qed.

(** Loading the merged dictionary: entry by entry. *)
Lemma load_entry_merged live saved kp :
  NoDup live.*1 -> kp ∈ live ->
  load_entry (merge_state_dict live saved).1 kp = (kp.1, default kp.2 (taken saved kp)).
Proof.
  intros Hnd Hin. unfold load_entry, merge_state_dict.
  rewrite merge_lookup; [| assumption | assumption | intros; apply lookup_empty].
  destruct (taken saved kp) as [t|] eqn:Ht; simpl.
  - apply taken_size in Ht. unfold same_size.
    rewrite bool_decide_eq_true_2 by congruence. reflexivity.
  - now destruct kp.
Qed.

Lemma no_size_mismatch_sub live saved (l : module A) :
  NoDup live.*1 -> (forall kp, kp ∈ l -> kp ∈ live) ->
  size_mismatches l (merge_state_dict live saved).1 = [].
Proof.
  intros Hnd. unfold size_mismatches.
  induction l as [|kp l IH]; intros Hsub; [reflexivity |].
  simpl. unfold merge_state_dict at 1.
  rewrite merge_lookup;
    [| assumption | apply Hsub, list_elem_of_here | intros; apply lookup_empty].
  assert (Hrest : forall kp0, kp0 ∈ l -> kp0 ∈ live)
    by (intros kp0 H0; now apply Hsub, list_elem_of_further).
  destruct (taken saved kp) as [t|] eqn:Ht; simpl.
  - apply taken_size in Ht. unfold same_size.
    rewrite bool_decide_eq_true_2 by congruence. now apply IH.
  - now apply IH.
Qed.

(** The loader, computed: no exception, the merged module, the skipped keys. *)
Lemma partial_load_eq live saved :
  NoDup live.*1 ->
  partial_load live saved
  = (Ok (merged_module live saved), Skipped <$> skipped_keys live saved).
Proof.
  intros Hnd. unfold partial_load. f_equal.
  - unfold load_state_dict. rewrite no_size_mismatch_sub by auto.
    f_equal. unfold merged_module. apply Forall_fmap_ext_1, Forall_forall.
    intros kp Hin. now apply load_entry_merged.
  - unfold merge_state_dict. now rewrite merge_log.
Qed.

Lemma unique_entry live k (p p' : tensor A) :
  NoDup live.*1 -> (k, p) ∈ live -> (k, p') ∈ live -> p = p'.
Proof.
  intros Hnd H1 H2.
  pose proof (elem_of_list_to_map_1 (M := gmap string) live k p Hnd H1) as E1.
  pose proof (elem_of_list_to_map_1 (M := gmap string) live k p' Hnd H2) as E2.
  congruence.
Qed.

Lemma skipped_iff live saved k p :
  NoDup live.*1 -> (k, p) ∈ live ->
  Skipped k ∈ Skipped <$> skipped_keys live saved <-> taken saved (k, p) = None.
Proof.
  intros Hnd Hin. rewrite list_elem_of_fmap. unfold skipped_keys. split.
  - intros (k' & Heq & Hk'). injection Heq as <-.
    apply list_elem_of_omap in Hk' as ([k0 p0] & Hin0 & Hsome).
    destruct (taken saved (k0, p0)) eqn:Ht; [discriminate |].
    injection Hsome as Hk. simpl in Hk. subst k0.
    now rewrite (unique_entry live k p p0 Hnd Hin Hin0).
  - intros Ht. exists k. split; [reflexivity |].
    apply list_elem_of_omap. exists (k, p). now rewrite Ht.
Qed.

(** C6: the partial loader of lines 145-153, on a live module whose keys are
    distinct. It raises nothing; at every position of the live module, the
    saved tensor is copied in exactly when the saved dictionary holds the key
    with the same shape, and the key is then not reported; in every other
    case the live tensor stays and the key is reported as skipped. *)
Theorem partial_load_spec live saved :
  NoDup live.*1 ->
  exists live',
    (partial_load live saved).1 = Ok live'
    /\ length live' = length live
    /\ forall i k p, live !! i = Some (k, p) ->
         match saved !! k with
         | Some t =>
             if decide (size p = size t)
             then live' !! i = Some (k, t)
                  /\ Skipped k ∉ (partial_load live saved).2
             else live' !! i = Some (k, p)
                  /\ Skipped k ∈ (partial_load live saved).2
         | None =>
             live' !! i = Some (k, p)
             /\ Skipped k ∈ (partial_load live saved).2
         end.
Proof.
  intros Hnd. rewrite partial_load_eq by assumption.
  exists (merged_module live saved). split; [reflexivity |].
  split; [apply length_fmap |].
  intros i k p Hi. cbn [fst snd].
  assert (Hin : (k, p) ∈ live) by (eapply list_elem_of_lookup_2; eassumption).
  assert (Hlk : merged_module live saved !! i
                = Some (k, default p (taken saved (k, p)))).
  { unfold merged_module. rewrite list_lookup_fmap, Hi. reflexivity. }
  rewrite Hlk. pose proof (skipped_iff live saved k p Hnd Hin) as Hsk.
  revert Hsk. unfold taken. cbn [fst snd].
  destruct (saved !! k) as [t|]; [| intros Hsk; split; [reflexivity | now apply Hsk]].
  destruct (decide (size p = size t)) as [Heq | Hne].
  - rewrite bool_decide_eq_true_2 by assumption. intros Hsk.
    split; [reflexivity |]. intros Hin'. now apply Hsk in Hin'.
  - rewrite bool_decide_eq_false_2 by assumption. intros Hsk.
    split; [reflexivity | now apply Hsk].
Qed.

End LoaderFacts.

(** A live ["w"] of shape (4,4) against a saved ["w"] of shape (3,3): the
    live tensor stays and ["w"] is reported. *)
Example partial_load_shape_mismatch :
  partial_load [("w"%string, mkTensor [4%nat; 4%nat] (replicate 16 0%Z))]
    {["w"%string := mkTensor [3%nat; 3%nat] (replicate 9 1%Z)]}
  = (Ok [("w"%string, mkTensor [4%nat; 4%nat] (replicate 16 0%Z))], [Skipped "w"]).
Proof. vm_compute. reflexivity. Qed.

(** The specification's example: a live ["w"] of shape (4,4) against a saved
    ["w"] of shape (3,3). *)
Lemma partial_load_spec_witness :
  let live : module Z := [("w"%string, mkTensor [4%nat; 4%nat] (replicate 16 0%Z))] in
  let saved : gmap string (tensor Z) :=
    {["w"%string := mkTensor [3%nat; 3%nat] (replicate 9 1%Z)]} in
  NoDup live.*1
  /\ exists live',
      (partial_load live saved).1 = Ok live'
      /\ length live' = length live
      /\ forall i k p, live !! i = Some (k, p) ->
           match saved !! k with
           | Some t =>
               if decide (size p = size t)
               then live' !! i = Some (k, t)
                    /\ Skipped k ∉ (partial_load live saved).2
               else live' !! i = Some (k, p)
                    /\ Skipped k ∈ (partial_load live saved).2
           | None =>
               live' !! i = Some (k, p)
               /\ Skipped k ∈ (partial_load live saved).2
           end.
Proof.
  cbv zeta.
  assert (Hnd : NoDup [("w"%string, mkTensor [4%nat; 4%nat] (replicate 16 0%Z))].*1).
  { apply NoDup_singleton. }
  split; [exact Hnd |].
  exact (partial_load_spec _ _ Hnd).
Defined.

End LoaderFacts.

(** ** Resume, best-model bookkeeping and schedule replay in [main] *)

Module MainFacts.
Import Main.
Section MainFacts.
Context {A Buf : Type}.
Implicit Types (r : run A Buf) (ck : checkpoint A Buf) (E : collaborators A Buf).

(** Whatever the checkpoint holds, a resume that succeeds hands back the
    discriminator it was given. *)
Lemma resume_discriminator_unchanged ck r r' :
  resume ck r = Ok r' -> discriminator r' = discriminator r.
Proof.
  unfold resume, bind. intros H.
  repeat match type of H with
         | match ?x with _ => _ end = _ => destruct x; [| discriminate]
         end.
  injection H as <-. reflexivity.
Qed.

Lemma resume_secondary ck r r' :
  resume ck r = Ok r' ->
  best_perf_01 r' = best_perf_01 r
  /\ exists ks, log r' = log r ++ (Skipped <$> ks).
Proof.
  unfold resume, bind. intros H.
  repeat match type of H with
         | match ?x with _ => _ end = _ => destruct x; [| discriminate]
         end.
  injection H as <-. split; [reflexivity |]. cbn [log].
  unfold partial_load, merge_state_dict. cbn [snd].
  rewrite !LoaderFacts.merge_log. cbn [snd app].
  eexists. rewrite <- fmap_app. reflexivity.
Qed.

(** C8: one pass through the epoch loop, with [perf] the metric [validate]
    returns in it. The pass flags a best model exactly when
    [perf >= best_perf]; when it does (ties included) the incumbent becomes
    [perf] and a checkpoint for epoch + 1 is written; when [perf] is strictly
    smaller the incumbent and the checkpoint file are left as they were and
    nothing is written. *)
Theorem epoch_body_best_model E (s : Sched.scheduler) r (epoch : Z) :
  let og := (Sched.step (s, optimizer_generator r)).2 in
  let perf := core_validate E epoch (core_train E epoch (lr og) (model r) (buffers og)).1 in
  let r' := (epoch_body E (s, r) epoch).2 in
  (best_model r' = true <-> (best_perf r <= perf)%Q)
  /\ ((best_perf r <= perf)%Q ->
        best_perf r' = perf
        /\ (exists ck, checkpoint_file r' = Some ck
                        /\ ck_epoch ck = (epoch + 1)%Z /\ ck_perf ck = perf)
        /\ log r' = log r ++ [Trained epoch (lr og);
                               SavedCheckpoint (epoch + 1) perf true;
                               BestSoFar perf (PyInt 0)])
  /\ ((perf < best_perf r)%Q ->
        best_perf r' = best_perf r
        /\ checkpoint_file r' = checkpoint_file r
        /\ log r' = log r ++ [Trained epoch (lr og);
                               BestSoFar (best_perf r) (best_perf_01 r)]).
Proof.
  cbv zeta. unfold epoch_body.
  destruct (Sched.step (s, optimizer_generator r)) as [s1 og1]. cbn [snd].
  destruct (core_train E epoch (lr og1) (model r) (buffers og1)) as [model1 buf1].
  cbn [fst lr initial_lr n_params buffers].
  unfold ge_best.
  destruct (Qle_bool (best_perf r) (core_validate E epoch model1)) eqn:Hle;
    cbn [snd best_model best_perf checkpoint_file log].
  - apply Qle_bool_iff in Hle. split; [tauto |]. split.
    + intros _. split; [reflexivity |]. split.
      * eexists. split; [reflexivity |]. split; reflexivity.
      * unfold save_checkpoint. cbn. now rewrite <- app_assoc.
    + intros Hlt. exfalso. now apply (Qlt_not_le _ _ Hlt).
  - assert (Hnle : ~ (best_perf r <= core_validate E epoch model1)%Q).
    { intros H. apply Qle_bool_iff in H. congruence. }
    split; [split; [discriminate | tauto] |]. split.
    + tauto.
    + intros _. split; [reflexivity |]. split; [reflexivity |].
      now rewrite <- app_assoc.
Qed.

(** The specification's two cases, run through the loop body with an
    incumbent of 0.80: a metric of 0.80 is flagged as best and a checkpoint
    is written, a metric of 0.79 is not. *)
Example epoch_body_tie :
  forall (E : collaborators A Buf) (s : Sched.scheduler) (r : run A Buf) (epoch : Z),
    best_perf r = (80 # 100) ->
    (forall m, core_validate E epoch m = (80 # 100)) ->
    best_model (epoch_body E (s, r) epoch).2 = true
    /\ (ck_perf <$> checkpoint_file (epoch_body E (s, r) epoch).2) = Some (80 # 100).
Proof.
  intros E s r epoch Hbest Hval. unfold epoch_body.
  destruct (Sched.step (s, optimizer_generator r)) as [s1 og1].
  destruct (core_train E epoch (lr og1) (model r) (buffers og1)) as [model1 buf1].
  rewrite Hbest, Hval. cbn. split; reflexivity.
Qed.

Example epoch_body_lower :
  forall (E : collaborators A Buf) (s : Sched.scheduler) (r : run A Buf) (epoch : Z),
    best_perf r = (80 # 100) ->
    (forall m, core_validate E epoch m = (79 # 100)) ->
    best_model (epoch_body E (s, r) epoch).2 = false
    /\ checkpoint_file (epoch_body E (s, r) epoch).2 = checkpoint_file r.
Proof.
  intros E s r epoch Hbest Hval. unfold epoch_body.
  destruct (Sched.step (s, optimizer_generator r)) as [s1 og1].
  destruct (core_train E epoch (lr og1) (model r) (buffers og1)) as [model1 buf1].
  rewrite Hbest, Hval. cbn. split; reflexivity.
Qed.

(** *** The secondary metric *)

Lemma epoch_body_secondary E (acc : Sched.scheduler * run A Buf) (epoch : Z) :
  secondary_zero acc.2 -> secondary_zero (epoch_body E acc epoch).2.
Proof.
  destruct acc as [s r]. intros [Hv Hlog]. unfold epoch_body. cbn [snd] in *.
  destruct (Sched.step (s, optimizer_generator r)) as [s1 og1].
  destruct (core_train E epoch (lr og1) (model r) (buffers og1)) as [model1 buf1].
  destruct (ge_best _ _); cbn [snd]; split; cbn [best_perf_01 log];
    try reflexivity; try assumption.
  - apply Forall_app. split.
    + apply Forall_app. split; [assumption | repeat constructor].
    + unfold save_checkpoint. cbn. repeat constructor.
  - apply Forall_app. split.
    + apply Forall_app. split; [assumption | repeat constructor].
    + repeat constructor. assumption.
Qed.

Lemma epoch_loop_secondary E (epochs : list Z) (acc : Sched.scheduler * run A Buf) :
  secondary_zero acc.2 -> secondary_zero (foldl (epoch_body E) acc epochs).2.
Proof.
  revert acc. induction epochs as [|e epochs IH]; intros acc Hacc; [exact Hacc |].
  simpl. apply IH. now apply epoch_body_secondary.
Qed.

Lemma train_loop_secondary E (cfg : config) r :
  secondary_zero r -> secondary_zero (train_loop E cfg r).2.
Proof.
  intros Hr. unfold train_loop.
  destruct (Sched.MultiStepLR _ _ _) as [s0 og0].
  destruct (Sched.replay _ _) as [s1 og1].
  apply epoch_loop_secondary. exact Hr.
Qed.

Lemma resume_secondary_zero ck r r' :
  resume ck r = Ok r' -> secondary_zero r -> secondary_zero r'.
Proof.
  intros Hres [Hv Hlog]. apply resume_secondary in Hres as [Heq [ks Hks]].
  split; [now rewrite Heq |]. rewrite Hks. apply Forall_app. split; [assumption |].
  apply Forall_fmap, Forall_forall. intros k _. exact I.
Qed.

(** C10: whatever the configuration, the checkpoint found on disk and the
    metrics [validate] returns, a run that reaches its end has
    [best_perf_01] equal to zero, and every "Best so far" line it printed
    shows zero as its PCKh@0.1. *)
Theorem best_perf_01_always_zero E (cfg : config) (model0 discriminator0 : module A)
    (optimizer_generator0 optimizer_discriminator0 : optimizer Buf)
    (file : option (checkpoint A Buf)) :
  match main E cfg model0 discriminator0 optimizer_generator0
          optimizer_discriminator0 file with
  | Ok r =>
      num_value (best_perf_01 r) = 0%Q
      /\ Forall (fun e => match e with
                         | BestSoFar _ perf_01 => num_value perf_01 = 0%Q
                         | _ => True
                         end) (log r)
  | Raise _ => True
  end.
Proof.
  unfold main.
  set (r0 := initial_run cfg model0 discriminator0 optimizer_generator0
               optimizer_discriminator0 file).
  assert (H0 : secondary_zero r0) by (split; [reflexivity | constructor]).
  assert (Hfinal : forall r1, secondary_zero r1 ->
            num_value (best_perf_01 (save_final (train_loop E cfg r1).2)) = 0%Q
            /\ Forall (fun e => match e with
                               | BestSoFar _ perf_01 => num_value perf_01 = 0%Q
                               | _ => True
                               end) (log (save_final (train_loop E cfg r1).2))).
  { intros r1 H1. destruct (train_loop_secondary E cfg r1 H1) as [Hv Hlog].
    unfold save_final. cbn [best_perf_01 log]. split; [assumption |].
    apply Forall_app. split; [assumption | repeat constructor]. }
  destruct file as [ck|]; [destruct (AUTO_RESUME cfg) |]; cbn [bind].
  - destruct (resume ck r0) as [r1|e] eqn:Hres; cbn [bind]; [| exact I].
    apply Hfinal. eapply resume_secondary_zero; eassumption.
  - now apply Hfinal.
  - now apply Hfinal.
Qed.

End MainFacts.

(** *** The discriminator on resume *)

(** C2: a resume against a checkpoint whose saved discriminator holds
    ["conv.weight"] with the shape of the live one. The resume succeeds, the live
    discriminator keeps its fresh tensor, and the saved tensor is not in it;
    the generator, which has a parameter of that name and shape, receives
    the discriminator's saved tensor over its own restored one. *)
Theorem resume_leaves_discriminator_fresh :
  let fresh_d := mkTensor [2%nat] [0; 0]%Z in
  let saved_d := mkTensor [2%nat] [1; 1]%Z in
  let fresh_g := mkTensor [2%nat] [5; 5]%Z in
  let saved_g := mkTensor [2%nat] [7; 7]%Z in
  let opt := mkOptimizer 1 None 1 tt in
  let ck := mkCheckpoint 3 {["conv.weight"%string := saved_g]}
              {["conv.weight"%string := saved_g]} (4 # 5)
              opt {["conv.weight"%string := saved_d]} opt in
  let r0 := initial_run (mkConfig true 0 5 [] 1) [("conv.weight"%string, fresh_g)]
              [("conv.weight"%string, fresh_d)] opt opt (Some ck) in
  exists r', resume ck r0 = Ok r'
             /\ discriminator r' = [("conv.weight"%string, fresh_d)]
             /\ discriminator r' <> [("conv.weight"%string, saved_d)]
             /\ model r' = [("conv.weight"%string, saved_d)].
Proof.
  cbv zeta. eexists. split; [vm_compute; reflexivity |].
  cbn [discriminator model]. split; [reflexivity |]. split; [discriminate | reflexivity].
Qed.

(** *** Schedule replay *)

Section Replay.
Context {Buf : Type}.
Implicit Types (so : Sched.scheduler * optimizer Buf).

Lemma step_position so :
  Sched.sched_last_epoch (Sched.step so).1 = (Sched.sched_last_epoch so.1 + 1)%Z.
Proof. destruct so as [s o]. reflexivity. Qed.

Lemma steps_position (l : list Z) so :
  Sched.sched_last_epoch (foldl (fun acc _ => Sched.step acc) so l).1
  = (Sched.sched_last_epoch so.1 + Z.of_nat (length l))%Z.
Proof.
  revert so. induction l as [|x l IH]; intros so; simpl.
  - lia.
  - rewrite IH, step_position. lia.
Qed.

(** The constructor leaves the scheduler at epoch 0, and a replay of [n]
    steps (none when [n] is negative) takes it to epoch [n]: the counter of a
    resumed run is where the counter of an uninterrupted run is. *)
Lemma replay_position (n : Z) (o : optimizer Buf) (ms : list Z) (g : Q) :
  Sched.sched_last_epoch (Sched.replay n (Sched.MultiStepLR o ms g)).1 = Z.max 0 n.
Proof.
  unfold Sched.replay, range. rewrite steps_position, length_seqZ.
  unfold Sched.MultiStepLR. rewrite step_position. cbn [fst Sched.sched_last_epoch]. lia.
Qed.

End Replay.

(** C7: milestones [5, 15], decay 0.1, base rate 1, a metric that improves in
    every epoch. A run of epochs 0..9 leaves a checkpoint for epoch 10. The
    uninterrupted run trains epoch 10 at rate 1/10; the run resumed from that
    checkpoint trains epoch 10 at rate 1/100: the restored optimizer already
    carries the decayed rate, and the replay decays it a second time. *)
Theorem resumed_rate_decays_twice :
  let E : collaborators Z unit :=
    mkCollaborators (fun _ _ m b => (m, b)) (fun epoch _ => inject_Z epoch) in
  let cfg := fun end_epoch => mkConfig true 0 end_epoch [5; 15]%Z (1 # 10) in
  let g : module Z := [("conv.weight"%string, mkTensor [1%nat] [0%Z])] in
  let d : module Z := [("fc.weight"%string, mkTensor [1%nat] [0%Z])] in
  let opt := mkOptimizer 1 None 1 tt in
  match main E (cfg 11%Z) g d opt opt None, main E (cfg 10%Z) g d opt opt None with
  | Ok uninterrupted, Ok first =>
      (ck_epoch <$> checkpoint_file first) = Some 10%Z
      /\ match main E (cfg 11%Z) g d opt opt (checkpoint_file first) with
         | Ok resumed =>
             begin_epoch resumed = 10%Z
             /\ rate_in_epoch 10 (log uninterrupted) = Some (1 # 10)
             /\ rate_in_epoch 10 (log resumed) = Some (1 # 100)
         | Raise _ => False
         end
  | _, _ => False
  end.
Proof.
  vm_compute. repeat split.
Qed.

End MainFacts.

(** ** The adversarial epoch *)

Module TrainGANFacts.
Import TrainGAN.
Section TrainGANFacts.
Context {World Meta : Type}.
Implicit Types (s : state World Meta) (E : torch_api World).

(** *** Running the body statement by statement *)

Lemma mbind_assoc {T U V} (m : M T) (k : T -> M U) (k' : U -> M V) s :
  mbind (mbind m k) k' s = mbind m (fun v => mbind (k v) k') s.
Proof. unfold mbind. destruct (m s) as [[v|e] s']; reflexivity. Qed.

Lemma mbind_raised {T U} (m : M T) (k : T -> M U) s e s' :
  m s = (Raise e, s') -> mbind m k s = (Raise e, s').
Proof. unfold mbind. now intros ->. Qed.

Lemma bind_ret {T U} (v : T) (k : T -> M U) s : mbind (ret v) k s = k v s.
Proof. reflexivity. Qed.

Lemma bind_raise {T U} (e : exn) (k : T -> M U) s :
  mbind (raise e) k s = (Raise e, s).
Proof. reflexivity. Qed.

Lemma bind_assign {U} x v (k : unit -> M U) s :
  mbind (assign x v) k s = k tt (mkState (world s) (<[x := v]> (locals s)) (trace s)).
Proof. reflexivity. Qed.

Lemma bind_emit {U} ev (k : unit -> M U) s :
  mbind (emit ev) k s = k tt (mkState (world s) (locals s) (trace s ++ [ev])).
Proof. reflexivity. Qed.

Lemma bind_on_world {U} f (k : unit -> M U) s :
  mbind (on_world f) k s = k tt (mkState (f (world s)) (locals s) (trace s)).
Proof. reflexivity. Qed.

Lemma bind_lift {T U} (r : result T) (k : T -> M U) s :
  mbind (lift r) k s = match r with Ok v => k v s | Raise e => (Raise e, s) end.
Proof. unfold mbind, lift. destruct r; reflexivity. Qed.

Lemma bind_call_forward {U} E n x (k : tensor R -> M U) s :
  mbind (call_forward E n x) k s
  = match forward E n x (world s) with
    | (Ok v, w) => k v (mkState w (locals s) (trace s ++ [Forward n]))
    | (Raise e, w) => (Raise e, mkState w (locals s) (trace s ++ [Forward n]))
    end.
Proof.
  unfold mbind, call_forward. destruct (forward E n x (world s)) as [[v|e] w]; reflexivity.
Qed.

Lemma bind_load_fast {U} x (k : value Meta -> M U) s v :
  locals s !! x = Some v -> mbind (load_fast x) k s = k v s.
Proof. unfold mbind, load_fast. now intros ->. Qed.

Lemma bind_load_fast_unbound {U} x (k : value Meta -> M U) s :
  locals s !! x = None -> mbind (load_fast x) k s = (Raise (UnboundLocalError x), s).
Proof. unfold mbind, load_fast. now intros ->. Qed.

Ltac exec_lookup :=
  cbn [locals];
  repeat (rewrite lookup_insert_ne by discriminate);
  first [apply lookup_insert_eq | eassumption | apply lookup_empty].

Ltac exec :=
  repeat first
    [ rewrite mbind_assoc
    | rewrite bind_assign
    | rewrite bind_emit
    | rewrite bind_on_world
    | rewrite bind_ret
    | rewrite bind_raise
    | rewrite bind_lift
    | rewrite bind_call_forward
    | erewrite bind_load_fast by exec_lookup
    | erewrite bind_load_fast_unbound by exec_lookup
    | progress cbn [as_tensor item py_add py_truediv world locals trace data scalar_tensor] ].

Lemma opt_steps_app (a b : list event) : opt_steps (a ++ b) = opt_steps a ++ opt_steps b.
Proof. apply omap_app. Qed.

Ltac no_steps :=
  cbn [trace]; rewrite !opt_steps_app; cbn [opt_steps omap]; now rewrite ?app_nil_r.

(** *** The name [input_resized] *)

Lemma input_resized_unbound :
  load_global (World := World) (Meta := Meta) "input_resized" = raise (NameError "input_resized").
Proof. reflexivity. Qed.

(** The discriminator phase never reaches line 301: it stops with an
    exception at line 300 at the latest, before [loss_disc.backward()] and
    [optimizer_discriminator.step()]. *)
Lemma discriminator_phase_raises E s (x t : tensor R) :
  locals s !! "input"%string = Some (VTensor x) ->
  locals s !! "target"%string = Some (VTensor t) ->
  exists e s',
    discriminator_phase E s = (Raise e, s')
    /\ opt_steps (trace s') = opt_steps (trace s)
    /\ (forall outputs w1 real_in disc_real w2,
          forward E Generator x (zero_grad E Discriminator (world s)) = (Ok outputs, w1) ->
          torch_cat E [t; x] 1 = Ok real_in ->
          forward E Discriminator real_in w1 = (Ok disc_real, w2) ->
          e = NameError "input_resized").
Proof.
  intros Hin Htg. unfold discriminator_phase. exec.
  destruct (forward E Generator x _) as [[outputs|e1] w1].
  2:{ eexists _, _. split; [reflexivity |]. split; [no_steps | discriminate]. }
  exec. destruct (torch_cat E [t; x] 1) as [real_in|e2].
  2:{ eexists _, _. split; [reflexivity |]. split; [no_steps |].
      intros ? ? ? ? ? _ Hcat. discriminate. }
  exec. destruct (forward E Discriminator real_in w1) as [[disc_real|e3] w2] eqn:Hd.
  2:{ eexists _, _. split; [reflexivity |]. split; [no_steps |].
      intros o' w1' r' d' w2' Ho Hc. injection Ho as <- <-. injection Hc as <-.
      rewrite Hd. discriminate. }
  exec. rewrite input_resized_unbound. exec.
  eexists _, _. split; [reflexivity |]. split; [no_steps | reflexivity].
Qed.

(** C1: an epoch over a loader with at least one batch. The run stops with
    an exception inside the discriminator phase of the first batch, and up
    to that point no optimizer update of either network has happened; when
    the forward passes and the concatenation of lines 297-299 succeed, the
    exception is the [NameError] for [input_resized] raised at line 300. *)
Theorem train_GAN_first_batch_raises E (w : World) (b : batch Meta) (bs : list (batch Meta)) :
  let out := train_GAN E (b :: bs) (entry w) in
  let w0 := zero_grad E Discriminator
              (set_train E Discriminator (set_train E Generator w)) in
  (exists e, out.1 = Raise e)
  /\ opt_steps (trace out.2) = []
  /\ (forall outputs w1 real_in disc_real w2,
        forward E Generator (b_input b) w0 = (Ok outputs, w1) ->
        torch_cat E [b_target b; b_input b] 1 = Ok real_in ->
        forward E Discriminator real_in w1 = (Ok disc_real, w2) ->
        out.1 = Raise (NameError "input_resized")).
Proof.
  cbv zeta. unfold train_GAN, entry. exec. cbn [for_enumerate]. exec.
  match goal with
  | |- context [mbind (discriminator_phase E) ?k ?s] =>
      destruct (discriminator_phase_raises E s (b_input b) (b_target b))
        as (e & s' & Hrun & Hsteps & Hname);
        [exec_lookup | exec_lookup |];
        rewrite (mbind_raised (discriminator_phase E) k s e s' Hrun)
  end.
  cbn [fst snd]. split; [now exists e |]. split.
  - rewrite Hsteps. reflexivity.
  - intros outputs w1 real_in disc_real w2 H1 H2 H3. f_equal.
    exact (Hname outputs w1 real_in disc_real w2 H1 H2 H3).
Qed.

(** *** The report at the end of the epoch *)

(** C9: an epoch over a loader with no batch. The loop variable [i] was
    never assigned when line 317 divides by it: the run stops with
    [UnboundLocalError] (a [NameError]) and nothing is reported. *)
Theorem train_GAN_empty_loader E (w : World) :
  train_GAN (Meta := Meta) E [] (entry w)
  = (Raise (UnboundLocalError "i"),
     mkState (set_train E Discriminator (set_train E Generator w))
       (<["avg_gen_loss"%string := VInt 0]> (<["avg_disc_loss"%string := VInt 0]> ∅))
       [PrintEpoch; TrainMode Generator; TrainMode Discriminator]).
Proof.
  unfold train_GAN, entry. exec. cbn [for_enumerate]. exec.
  unfold report. exec. reflexivity.
Qed.


(** After a loop that did run, line 317 divides the totals by the last index
    [i], one less than the number of batches. *)
Lemma report_divides_by_last_index s (g d : R) (i : Z) :
  locals s !! "avg_gen_loss"%string = Some (VFloat g) ->
  locals s !! "avg_disc_loss"%string = Some (VFloat d) ->
  locals s !! "i"%string = Some (VInt i) ->
  i <> 0%Z ->
  report s = (Ok tt, mkState (world s) (locals s)
                       (trace s ++ [Report (g / IZR i) (d / IZR i)])).
Proof.
  intros Hg Hd Hi Hne. unfold report. exec.
  repeat (rewrite bool_decide_eq_false_2 by assumption; exec).
  unfold emit. reflexivity.
Qed.

(** With a single batch the last index is 0 and the division raises. *)
Lemma report_after_one_batch s (g : value Meta) :
  locals s !! "avg_gen_loss"%string = Some g ->
  locals s !! "i"%string = Some (VInt 0) ->
  exists e, report s = (Raise e, s).
Proof.
  intros Hg Hi. unfold report. exec.
  destruct g; exec; eexists; reflexivity.
Qed.

End TrainGANFacts.
End TrainGANFacts.

(** * Further properties of the driver *)

(** ** Loss engine: bounds and monotonicity *)

Module LossProps.
Import Loss SpecLoss LossFacts.
Local Open Scope R_scope.

Lemma fold_right_Rplus_le (l1 l2 : list R) :
  Forall2 Rle l1 l2 -> fold_right Rplus 0 l1 <= fold_right Rplus 0 l2.
Proof. induction 1; simpl; lra. Qed.

Lemma average_le (l1 l2 : list R) :
  Forall2 Rle l1 l2 -> average l1 <= average l2.
Proof.
  intros H. unfold average. rewrite <- (Forall2_length _ _ _ H).
  assert (Hs := fold_right_Rplus_le l1 l2 H).
  destruct l1 as [|x l1].
  - apply Forall2_nil_inv_l in H. subst. lra.
  - assert (Hn : 0 < INR (length (x :: l1))) by (apply lt_0_INR; simpl; lia).
    assert (Hi := Rinv_0_lt_compat _ Hn). unfold Rdiv. nra.
Qed.

Lemma average_const_bound (c : R) (l : list R) :
  l <> [] -> Forall (fun x => x <= c) l -> average l <= c.
Proof.
  intros Hne Hall. unfold average.
  assert (Hs : fold_right Rplus 0 l <= INR (length l) * c).
  { clear Hne. induction Hall as [|x l Hx _ IH]; [simpl; lra |].
    change (length (x :: l)) with (S (length l)). rewrite S_INR. simpl. lra. }
  assert (Hn : 0 < INR (length l)).
  { apply lt_0_INR. destruct l; [congruence | simpl; lia]. }
  apply (Rmult_le_reg_l (INR (length l))); [assumption |].
  unfold Rdiv. rewrite (Rmult_comm (fold_right Rplus 0 l)), <- Rmult_assoc.
  rewrite Rinv_r by lra. lra.
Qed.

Lemma ln_le_mono (x y : R) : 0 < x -> x <= y -> ln x <= ln y.
Proof.
  intros Hx [Hlt | ->]; [| lra]. left. now apply ln_increasing.
Qed.

(** X2: for non-empty discriminator outputs with every value in the closed
    interval from 0 to 1, saturated values included, the discriminator loss
    is at least −2·ln(1 + 2ε), about −4e-5: it is bounded below and never
    runs to −∞ at saturation. In exact arithmetic the loss reaches
    −2·ln(1 + ε) at real = 1, fake = 0; the bound leaves one ε of slack in
    the argument of the logarithm for the rounding of ε + 1. *)
Theorem get_loss_disc_lower_bound (disc_fake disc_real : tensor R) :
  data disc_real <> [] ->
  data disc_fake <> [] ->
  Forall (fun x => 0 <= x <= 1) (data disc_real) ->
  Forall (fun x => 0 <= x <= 1) (data disc_fake) ->
  - (2 * ln (1 + 2 * epsilon)) <= get_loss_disc disc_fake disc_real.
Proof.
  intros Hr Hf Hreal Hfake. rewrite get_loss_disc_average. unfold discriminatorLoss.
  assert (He := epsilon_pos).
  assert (average (List.map (fun x => ln (epsilon + x)) (data disc_real))
          <= ln (1 + 2 * epsilon)).
  { apply average_const_bound.
    - destruct (data disc_real); [congruence | discriminate].
    - clear Hr. induction Hreal as [|x l [H0 H1] _ IH]; simpl; constructor; auto.
      apply ln_le_mono; lra. }
  assert (average (List.map (fun y => ln (epsilon + 1 - y)) (data disc_fake))
          <= ln (1 + 2 * epsilon)).
  { apply average_const_bound.
    - destruct (data disc_fake); [congruence | discriminate].
    - clear Hf. induction Hfake as [|x l [H0 H1] _ IH]; simpl; constructor; auto.
      apply ln_le_mono; lra. }
  lra.
Qed.

Lemma get_loss_disc_lower_bound_witness :
  let disc_real := mkTensor [2%nat] [1; 0] in
  let disc_fake := mkTensor [2%nat] [0; 1] in
  data disc_real <> []
  /\ data disc_fake <> []
  /\ Forall (fun x => 0 <= x <= 1) (data disc_real)
  /\ Forall (fun x => 0 <= x <= 1) (data disc_fake)
  /\ - (2 * ln (1 + 2 * epsilon)) <= get_loss_disc disc_fake disc_real.
Proof.
  cbv zeta.
  assert (H1 : data (mkTensor [2%nat] [1; 0]) <> []) by discriminate.
  assert (H2 : data (mkTensor [2%nat] [0; 1]) <> []) by discriminate.
  assert (H3 : Forall (fun x => 0 <= x <= 1) (data (mkTensor [2%nat] [1; 0]))).
  { repeat constructor; lra. }
  assert (H4 : Forall (fun x => 0 <= x <= 1) (data (mkTensor [2%nat] [0; 1]))).
  { repeat constructor; lra. }
  repeat (split; [assumption |]).
  exact (get_loss_disc_lower_bound _ _ H1 H2 H3 H4).
Defined.









(** X5: the adversarial term rewards a higher discriminator output: if every
    entry of one fake output is at least the matching entry of another, and
    the arguments of the logarithm are positive, the helper's [real=True]
    value does not increase. *)
Theorem get_loss_disc_helper_antitone (lower higher : tensor R) (eps : R) :
  Forall2 (fun a b => 0 < eps + a /\ a <= b) (data lower) (data higher) ->
  _get_loss_disc higher true eps <= _get_loss_disc lower true eps.
Proof.
  intros H. rewrite !get_loss_disc_helper_real.
  assert (average (List.map (fun x => ln (eps + x)) (data lower))
          <= average (List.map (fun x => ln (eps + x)) (data higher))).
  { apply average_le. induction H as [|a b l1 l2 [Ha Hab] _ IH]; simpl; constructor; auto.
    apply ln_le_mono; lra. }
  lra.
Qed.

Lemma get_loss_disc_helper_antitone_witness :
  let lower := mkTensor [2%nat] [/ 4; / 2] in
  let higher := mkTensor [2%nat] [/ 2; / 2] in
  Forall2 (fun a b => 0 < epsilon + a /\ a <= b) (data lower) (data higher)
  /\ _get_loss_disc higher true epsilon <= _get_loss_disc lower true epsilon.
Proof.
  cbv zeta. assert (He := epsilon_pos).
  assert (H : Forall2 (fun a b => 0 < epsilon + a /\ a <= b)
                (data (mkTensor [2%nat] [/ 4; / 2])) (data (mkTensor [2%nat] [/ 2; / 2]))).
  { repeat constructor; lra. }
  split; [exact H |].
  exact (get_loss_disc_helper_antitone _ _ _ H).
Defined.

End LossProps.

(** ** Partial state loader: what a load preserves *)

Module LoaderProps.
Import Main SpecLoader LoaderFacts.
Section LoaderProps.
Context {A : Type}.
Implicit Types (live : module A) (saved : gmap string (tensor A)).

Lemma merged_module_keys live saved : (merged_module live saved).*1 = live.*1.
Proof.
  unfold merged_module. rewrite <- list_fmap_compose.
  apply list_fmap_ext. intros i kp _. reflexivity.
Qed.

Lemma merged_entry_size saved (kp : string * tensor A) :
  size (default kp.2 (taken saved kp)) = size kp.2.
Proof.
  destruct (taken saved kp) as [t|] eqn:Ht; [| reflexivity].
  symmetry. now apply taken_size in Ht.
Qed.

Lemma taken_again saved (kp : string * tensor A) :
  taken saved (kp.1, default kp.2 (taken saved kp)) = taken saved kp.
Proof.
  destruct (taken saved kp) as [t|] eqn:Ht; cbn [default from_option id].
  - pose proof (taken_size _ _ _ Ht) as Hsz. revert Ht. unfold taken. cbn [fst snd].
    destruct (saved !! kp.1) as [t'|]; [| discriminate].
    case_bool_decide; [| discriminate]. intros [= ->].
    now rewrite bool_decide_eq_true_2.
  - destruct kp. exact Ht.
Qed.

(** X6: a partial load changes neither the parameter names, nor their order,
    nor the shape of any parameter of the live module. *)
Theorem partial_load_keeps_names_and_shapes live saved :
  NoDup live.*1 ->
  exists live',
    (partial_load live saved).1 = Ok live'
    /\ live'.*1 = live.*1
    /\ (fun kp => size kp.2) <$> live' = (fun kp => size kp.2) <$> live.
Proof.
  intros Hnd. rewrite partial_load_eq by assumption.
  exists (merged_module live saved). split; [reflexivity |].
  split; [apply merged_module_keys |].
  unfold merged_module. rewrite <- list_fmap_compose.
  apply list_fmap_ext. intros i kp _. apply merged_entry_size.
Qed.

(** X7: loading the same saved dictionary a second time changes nothing: the
    module is the one the first load produced and the same keys are
    reported. *)
Theorem partial_load_idempotent live saved live' :
  NoDup live.*1 ->
  (partial_load live saved).1 = Ok live' ->
  partial_load live' saved = (Ok live', (partial_load live saved).2).
Proof.
  intros Hnd. rewrite partial_load_eq by assumption. cbn [fst snd].
  intros [= <-].
  rewrite partial_load_eq by (now rewrite merged_module_keys).
  f_equal.
  - f_equal. unfold merged_module. rewrite <- list_fmap_compose.
    apply list_fmap_ext. intros i kp _. unfold compose. cbn [fst snd].
    rewrite taken_again. now destruct (taken saved kp).
  - f_equal. unfold skipped_keys, merged_module.
    induction live as [|kp live IH]; [reflexivity |].
    apply NoDup_cons in Hnd as [_ Hnd]. cbn [fmap list_fmap omap list_omap].
    rewrite taken_again. cbn [fst]. destruct (taken saved kp); [now apply IH |].
    f_equal. now apply IH.
Qed.

(** X8: round trip. A module loaded from its own [state_dict()] is unchanged
    and no key is reported. *)
Theorem partial_load_own_state_dict live :
  NoDup live.*1 ->
  partial_load live (state_dict live) = (Ok live, []).
Proof.
  intros Hnd. rewrite partial_load_eq by assumption.
  assert (Htaken : forall kp, kp ∈ live -> taken (state_dict live) kp = Some kp.2).
  { intros [k p] Hin. unfold taken, state_dict. cbn [fst snd].
    rewrite (elem_of_list_to_map_1 (M := gmap string) live k p Hnd Hin).
    now rewrite bool_decide_eq_true_2. }
  f_equal.
  - f_equal. unfold merged_module.
    etransitivity; [| apply (list_fmap_id live)].
    apply Forall_fmap_ext_1, Forall_forall. intros kp Hin.
    rewrite (Htaken kp Hin). now destruct kp.
  - assert (Hsub : forall l : module A,
               Forall (fun kp => kp ∈ live) l -> skipped_keys l (state_dict live) = []).
    { intros l Hall. unfold skipped_keys.
      induction Hall as [|kp l Hin _ IH]; [reflexivity |].
      cbn [omap list_omap]. now rewrite (Htaken kp Hin). }
    rewrite Hsub; [reflexivity |]. apply Forall_forall; auto.
Qed.

End LoaderProps.

Lemma partial_load_keeps_names_and_shapes_witness :
  let live : module Z := [("w"%string, mkTensor [2%nat] [0; 0]%Z);
                          ("b"%string, mkTensor [1%nat] [0]%Z)] in
  let saved : gmap string (tensor Z) :=
    {["w"%string := mkTensor [2%nat] [3; 4]%Z]} in
  NoDup live.*1
  /\ exists live',
      (partial_load live saved).1 = Ok live'
      /\ live'.*1 = live.*1
      /\ (fun kp => size kp.2) <$> live' = (fun kp => size kp.2) <$> live.
Proof.
  cbv zeta.
  assert (Hnd : NoDup [("w"%string, mkTensor [2%nat] [0; 0]%Z);
                       ("b"%string, mkTensor [1%nat] [0]%Z)].*1).
  { apply NoDup_cons. split; [| apply NoDup_singleton].
    intros H. apply list_elem_of_singleton in H. discriminate. }
  split; [exact Hnd |].
  exact (partial_load_keeps_names_and_shapes _ _ Hnd).
Defined.

Lemma partial_load_idempotent_witness :
  let live : module Z := [("w"%string, mkTensor [2%nat] [0; 0]%Z)] in
  let saved : gmap string (tensor Z) :=
    {["w"%string := mkTensor [2%nat] [3; 4]%Z]} in
  let live' : module Z := [("w"%string, mkTensor [2%nat] [3; 4]%Z)] in
  NoDup live.*1
  /\ (partial_load live saved).1 = Ok live'
  /\ partial_load live' saved = (Ok live', (partial_load live saved).2).
Proof.
  cbv zeta.
  assert (Hnd : NoDup [("w"%string, mkTensor [2%nat] [0; 0]%Z)].*1)
    by apply NoDup_singleton.
  assert (H1 : (partial_load [("w"%string, mkTensor [2%nat] [0; 0]%Z)]
                  ({["w"%string := mkTensor [2%nat] [3; 4]%Z]} : gmap string (tensor Z))).1
               = Ok [("w"%string, mkTensor [2%nat] [3; 4]%Z)])
    by (vm_compute; reflexivity).
  split; [exact Hnd |]. split; [exact H1 |].
  exact (partial_load_idempotent _ _ _ Hnd H1).
Defined.

Lemma partial_load_own_state_dict_witness :
  let live : module Z := [("w"%string, mkTensor [2%nat] [3; 4]%Z)] in
  NoDup live.*1 /\ partial_load live (state_dict live) = (Ok live, []).
Proof.
  cbv zeta.
  assert (Hnd : NoDup [("w"%string, mkTensor [2%nat] [3; 4]%Z)].*1)
    by apply NoDup_singleton.
  split; [exact Hnd |].
  exact (partial_load_own_state_dict _ Hnd).
Defined.

End LoaderProps.

(** ** Resume: what reaches the generator and the discriminator *)

Module ResumeProps.
Import Main SpecLoader LoaderFacts LoaderProps MainFacts.
Section ResumeProps.
Context {A Buf : Type}.
Implicit Types (r : run A Buf) (ck : checkpoint A Buf) (m : module A).





(** X10: when a generator parameter and a discriminator parameter share a
    name, the checkpoint holds the discriminator's tensor under that name
    with the discriminator's shape, and the generator's shape is another
    one, the resume raises: line 163 hands the generator a tensor of the
    wrong shape. The one pair of differing shapes torch accepts, a
    one-dimensional saved tensor for a zero-dimensional parameter, is
    excluded. *)
Theorem resume_raises_on_shared_name ck r (k : string) (p q t : tensor A) :
  NoDup (model r).*1 ->
  NoDup (discriminator r).*1 ->
  (k, p) ∈ model r ->
  (k, q) ∈ discriminator r ->
  ck_discriminator_state_dict ck !! k = Some t ->
  size q = size t ->
  size p <> size t ->
  ~ (size p = [] /\ length (size t) = 1%nat) ->
  resume ck r = Raise (RuntimeError "size mismatch").
Proof.
  intros Hndm Hndd Hp Hq Ht Hqt Hpt _.
  unfold resume. rewrite partial_load_eq by assumption. cbn [fst snd bind].
  set (model1 := merged_module (model r) (ck_state_dict ck)).
  set (nd := merge_state_dict (discriminator r) (ck_discriminator_state_dict ck)).
  assert (Hlk : nd.1 !! k = Some t).
  { unfold nd, merge_state_dict.
    rewrite (merge_lookup (discriminator r) _ _ (k, q) Hndd Hq)
      by (intros; apply lookup_empty).
    unfold taken. cbn [fst snd]. rewrite Ht. now rewrite bool_decide_eq_true_2. }
  assert (Hin1 : (k, default p (taken (ck_state_dict ck) (k, p))) ∈ model1).
  { unfold model1, merged_module.
    apply (list_elem_of_fmap_2
             (fun kp : string * tensor A => (kp.1, default kp.2 (taken (ck_state_dict ck) kp)))
             (model r) (k, p) Hp). }
  assert (Hmis : k ∈ size_mismatches model1 nd.1).
  { unfold size_mismatches. apply list_elem_of_omap.
    eexists. split; [exact Hin1 |]. cbn [fst snd]. rewrite Hlk.
    unfold same_size. rewrite bool_decide_eq_false_2; [reflexivity |].
    pose proof (merged_entry_size (ck_state_dict ck) (k, p)) as Hsz.
    cbn [snd] in Hsz. rewrite Hsz. congruence. }
  unfold load_state_dict.
  destruct (size_mismatches model1 nd.1) as [|k' ks]; [| reflexivity].
  now apply elem_of_nil in Hmis.
Qed.

End ResumeProps.


Lemma resume_raises_on_shared_name_witness :
  let g0 : module Z := [("conv.weight"%string, mkTensor [3%nat] [0; 0; 0]%Z)] in
  let d0 : module Z := [("conv.weight"%string, mkTensor [2%nat] [0; 0]%Z)] in
  let opt := mkOptimizer 1 None 1 tt in
  let t := mkTensor [2%nat] [1; 1]%Z in
  let ck := mkCheckpoint 6 (state_dict g0) (state_dict g0) (4 # 5) opt
              {["conv.weight"%string := t]} opt in
  let r := initial_run (mkConfig true 0 9 [5]%Z (1 # 10)) g0 d0 opt opt (Some ck) in
  NoDup (model r).*1
  /\ NoDup (discriminator r).*1
  /\ ("conv.weight"%string, mkTensor [3%nat] [0; 0; 0]%Z) ∈ model r
  /\ ("conv.weight"%string, mkTensor [2%nat] [0; 0]%Z) ∈ discriminator r
  /\ ck_discriminator_state_dict ck !! "conv.weight"%string = Some t
  /\ size (mkTensor [2%nat] [0; 0]%Z) = size t
  /\ size (mkTensor [3%nat] [0; 0; 0]%Z) <> size t
  /\ ~ (size (mkTensor [3%nat] [0; 0; 0]%Z) = [] /\ length (size t) = 1%nat)
  /\ resume ck r = Raise (RuntimeError "size mismatch").
Proof.
  cbv zeta.
  set (g0 := [("conv.weight"%string, mkTensor [3%nat] [0; 0; 0]%Z)] : module Z).
  set (d0 := [("conv.weight"%string, mkTensor [2%nat] [0; 0]%Z)] : module Z).
  set (opt := mkOptimizer 1 None 1 tt).
  set (t := mkTensor [2%nat] [1; 1]%Z).
  set (ck := mkCheckpoint 6 (state_dict g0) (state_dict g0) (4 # 5) opt
               ({["conv.weight"%string := t]} : gmap string (tensor Z)) opt).
  set (r := initial_run (mkConfig true 0 9 [5]%Z (1 # 10)) g0 d0 opt opt (Some ck)).
  assert (H1 : NoDup (model r).*1) by apply NoDup_singleton.
  assert (H2 : NoDup (discriminator r).*1) by apply NoDup_singleton.
  assert (H3 : ("conv.weight"%string, mkTensor [3%nat] [0; 0; 0]%Z) ∈ model r)
    by apply list_elem_of_here.
  assert (H4 : ("conv.weight"%string, mkTensor [2%nat] [0; 0]%Z) ∈ discriminator r)
    by apply list_elem_of_here.
  assert (H5 : ck_discriminator_state_dict ck !! "conv.weight"%string = Some t)
    by apply lookup_singleton_eq.
  assert (H6 : size (mkTensor [2%nat] [0; 0]%Z) = size t) by reflexivity.
  assert (H7 : size (mkTensor [3%nat] [0; 0; 0]%Z) <> size t) by discriminate.
  assert (H8 : ~ (size (mkTensor [3%nat] [0; 0; 0]%Z) = [] /\ length (size t) = 1%nat)).
  { intros [H _]. discriminate. }
  repeat (split; [assumption |]).
  exact (resume_raises_on_shared_name ck r _ _ _ t H1 H2 H3 H4 H5 H6 H7 H8).
Defined.

End ResumeProps.

(** ** The epoch loop of [main]: what a finished run has done *)

Module MainProps.
Import Main Observe MainFacts.
Section MainProps.
Context {A Buf : Type}.
Implicit Types (r : run A Buf) (ck : checkpoint A Buf) (E : collaborators A Buf).

(** The two ways through the loop body. *)
Lemma epoch_body_cases E (s : Sched.scheduler) r (epoch : Z) :
  let r' := (epoch_body E (s, r) epoch).2 in
  discriminator r' = discriminator r
  /\ begin_epoch r' = begin_epoch r
  /\ exists rate,
      (log r' = log r ++ [Trained epoch rate; BestSoFar (best_perf r) (best_perf_01 r)]
       /\ best_perf r' = best_perf r
       /\ checkpoint_file r' = checkpoint_file r)
      \/ (exists ck,
            log r' = log r ++ [Trained epoch rate;
                               SavedCheckpoint (epoch + 1) (best_perf r') true;
                               BestSoFar (best_perf r') (PyInt 0)]
            /\ (best_perf r <= best_perf r')%Q
            /\ checkpoint_file r' = Some ck
            /\ ck_perf ck = best_perf r'
            /\ ck_epoch ck = (epoch + 1)%Z
            /\ ck_discriminator_state_dict ck = state_dict (discriminator r)
            /\ ck_state_dict ck = state_dict (model r')).
Proof.
  cbv zeta. unfold epoch_body.
  destruct (Sched.step (s, optimizer_generator r)) as [s1 og1].
  destruct (core_train E epoch (lr og1) (model r) (buffers og1)) as [model1 buf1].
  unfold ge_best.
  destruct (Qle_bool (best_perf r) (core_validate E epoch model1)) eqn:Hle;
    cbn [snd discriminator begin_epoch log best_perf best_perf_01 checkpoint_file model].
  - apply Qle_bool_iff in Hle. split; [reflexivity |]. split; [reflexivity |].
    exists (lr og1). right. eexists. unfold save_checkpoint. cbn [fst snd].
    split; [now rewrite <- app_assoc |]. split; [assumption |].
    split; [reflexivity |]. repeat split.
  - split; [reflexivity |]. split; [reflexivity |].
    exists (lr og1). left. split; [now rewrite <- app_assoc |]. split; reflexivity.
Qed.

(** What [resume] sets, when it succeeds. *)
Lemma resume_fields ck r r' :
  resume ck r = Ok r' ->
  begin_epoch r' = ck_epoch ck
  /\ best_perf r' = ck_perf ck
  /\ checkpoint_file r' = checkpoint_file r
  /\ discriminator r' = discriminator r
  /\ exists ks, log r' = log r ++ (Skipped <$> ks).
Proof.
  intros H. pose proof (resume_secondary ck r r' H) as [_ Hlog].
  pose proof (resume_discriminator_unchanged ck r r' H) as Hd.
  revert H. unfold resume, bind. intros H.
  repeat match type of H with
         | match ?x with _ => _ end = _ => destruct x; [| discriminate]
         end.
  injection H as <-. repeat split; assumption.
Qed.

(** [train_loop] is the epoch loop started on the run it was given, with
    only the generator optimizer touched by the scheduler. *)
Lemma train_loop_cases E (cfg : config) r :
  exists s1 og1,
    train_loop E cfg r
    = foldl (epoch_body E)
        (s1, mkRun (best_perf r) (best_perf_01 r) (best_model r) (last_epoch r)
               (begin_epoch r) (model r) (discriminator r) og1
               (optimizer_discriminator r) (checkpoint_file r) (log r))
        (range2 (begin_epoch r) (END_EPOCH cfg)).
Proof.
  unfold train_loop.
  destruct (Sched.MultiStepLR _ _ _) as [s0 og0].
  destruct (Sched.replay _ _) as [s1 og1]. now exists s1, og1.
Qed.

(** How [main] reaches its result. *)
Lemma main_cases E (cfg : config) (model0 discriminator0 : module A)
    (og0 od0 : optimizer Buf) (file : option (checkpoint A Buf)) r :
  main E cfg model0 discriminator0 og0 od0 file = Ok r ->
  let r0 := initial_run cfg model0 discriminator0 og0 od0 file in
  exists r1,
    r = save_final (train_loop E cfg r1).2
    /\ ((r1 = r0 /\ (file = None \/ AUTO_RESUME cfg = false))
        \/ (exists ck, file = Some ck /\ AUTO_RESUME cfg = true /\ resume ck r0 = Ok r1)).
Proof.
  cbv zeta. unfold main.
  destruct file as [ck|]; [destruct (AUTO_RESUME cfg) eqn:Hauto |]; cbn [bind].
  - destruct (resume ck _) as [r1|e] eqn:Hres; cbn [bind]; [| discriminate].
    intros [= <-]. exists r1. split; [reflexivity |]. right. now exists ck.
  - intros [= <-]. eexists. split; [reflexivity |]. left. split; [reflexivity | now right].
  - intros [= <-]. eexists. split; [reflexivity |]. left. split; [reflexivity | now left].
Qed.

(** Induction over the epoch loop: [I done r] relates the epochs already
    run to the state they left. *)
Lemma epoch_loop_invariant E (Q : Z -> Prop) (I : list Z -> run A Buf -> Prop)
    (epochs : list Z) :
  Forall Q epochs ->
  (forall done e s r, Q e -> I done r -> I (done ++ [e]) (epoch_body E (s, r) e).2) ->
  forall done (acc : Sched.scheduler * run A Buf),
    I done acc.2 -> I (done ++ epochs) (foldl (epoch_body E) acc epochs).2.
Proof.
  intros HQ Hstep. induction HQ as [|e epochs He _ IH]; intros done acc Hacc.
  - now rewrite app_nil_r.
  - cbn [foldl]. rewrite (assoc_L (++) done [e] epochs : done ++ e :: epochs = _).
    apply IH. destruct acc as [s r]. now apply Hstep.
Qed.

Lemma train_loop_invariant E (cfg : config) (I : list Z -> run A Buf -> Prop) r :
  (forall og, I [] r ->
     I [] (mkRun (best_perf r) (best_perf_01 r) (best_model r) (last_epoch r)
             (begin_epoch r) (model r) (discriminator r) og
             (optimizer_discriminator r) (checkpoint_file r) (log r))) ->
  (forall done e s r',
     (begin_epoch r <= e < END_EPOCH cfg)%Z ->
     I done r' -> I (done ++ [e]) (epoch_body E (s, r') e).2) ->
  I [] r ->
  I (range2 (begin_epoch r) (END_EPOCH cfg)) (train_loop E cfg r).2.
Proof.
  intros Hog Hstep H0. destruct (train_loop_cases E cfg r) as (s1 & og1 & ->).
  apply (epoch_loop_invariant E
           (fun e => (begin_epoch r <= e < END_EPOCH cfg)%Z) I _) with (done := []).
  - apply Forall_forall. intros e He. unfold range2 in He.
    apply elem_of_seqZ in He. lia.
  - exact Hstep.
  - cbn [snd]. now apply Hog.
Qed.

Lemma observers_skipped (ks : list string) :
  trained_epochs (Skipped <$> ks) = []
  /\ best_values (Skipped <$> ks) = []
  /\ final_saves (Skipped <$> ks) = 0%nat.
Proof.
  unfold trained_epochs, best_values, final_saves.
  induction ks as [|k ks (H1 & H2 & H3)]; [repeat split |].
  cbn [fmap list_fmap omap list_omap]. repeat split; assumption.
Qed.

Lemma trained_epochs_app (l1 l2 : list event) :
  trained_epochs (l1 ++ l2) = trained_epochs l1 ++ trained_epochs l2.
Proof. apply omap_app. Qed.

Lemma best_values_app (l1 l2 : list event) :
  best_values (l1 ++ l2) = best_values l1 ++ best_values l2.
Proof. apply omap_app. Qed.

Lemma final_saves_app (l1 l2 : list event) :
  final_saves (l1 ++ l2) = (final_saves l1 + final_saves l2)%nat.
Proof. unfold final_saves. now rewrite omap_app, length_app. Qed.

(** X11: [main] never touches the discriminator. In a run that reaches its
    end the discriminator is the one the run was started with, whether or
    not a checkpoint was resumed, and every checkpoint the run wrote holds
    the state of that untouched discriminator. *)
Theorem main_never_updates_discriminator E (cfg : config)
    (model0 discriminator0 : module A) (og0 od0 : optimizer Buf)
    (file : option (checkpoint A Buf)) :
  match main E cfg model0 discriminator0 og0 od0 file with
  | Ok r =>
      discriminator r = discriminator0
      /\ (checkpoint_file r = file
          \/ exists ck, checkpoint_file r = Some ck
                        /\ ck_discriminator_state_dict ck = state_dict discriminator0)
  | Raise _ => True
  end.
Proof.
  destruct (main E cfg model0 discriminator0 og0 od0 file) as [r|e] eqn:Hmain; [| exact I].
  apply main_cases in Hmain as (r1 & -> & Hr1).
  set (Inv := fun (_ : list Z) (r : run A Buf) =>
                discriminator r = discriminator0
                /\ (checkpoint_file r = file
                    \/ exists ck, checkpoint_file r = Some ck
                                  /\ ck_discriminator_state_dict ck
                                     = state_dict discriminator0)).
  assert (H1 : Inv [] r1).
  { destruct Hr1 as [[-> _] | (ck & _ & _ & Hres)].
    - split; [reflexivity | now left].
    - apply resume_fields in Hres as (_ & _ & Hf & Hd & _).
      split; [exact Hd | left; exact Hf]. }
  assert (H2 : Inv (range2 (begin_epoch r1) (END_EPOCH cfg)) (train_loop E cfg r1).2).
  { apply train_loop_invariant; [intros og H; exact H | | exact H1].
    intros done e s r' _ [Hd Hf].
    destruct (epoch_body_cases E s r' e) as (Hd' & _ & rate & Hcase).
    split; [now rewrite Hd' |].
    destruct Hcase as [(_ & _ & Hsame) | (ck & _ & _ & Hck & _ & _ & Hdd & _)].
    - now rewrite Hsame.
    - right. exists ck. split; [assumption |]. now rewrite Hdd, Hd. }
  exact H2.
Qed.

(** X12: a run that reaches its end has trained exactly the epochs from its
    begin epoch (the configured one, or the checkpoint's on resume) up to
    [END_EPOCH], each once and in order, has printed one "Best so far" line
    per epoch, and has written the final state exactly once, as its last
    action; with [END_EPOCH] at or below the begin epoch that is all it
    does. *)
Theorem main_epoch_schedule E (cfg : config)
    (model0 discriminator0 : module A) (og0 od0 : optimizer Buf)
    (file : option (checkpoint A Buf)) :
  match main E cfg model0 discriminator0 og0 od0 file with
  | Ok r =>
      begin_epoch r
      = match file with
        | Some ck => if AUTO_RESUME cfg then ck_epoch ck else BEGIN_EPOCH cfg
        | None => BEGIN_EPOCH cfg
        end
      /\ trained_epochs (log r) = range2 (begin_epoch r) (END_EPOCH cfg)
      /\ length (best_values (log r)) = Z.to_nat (END_EPOCH cfg - begin_epoch r)
      /\ final_saves (log r) = 1%nat
      /\ last (log r) = Some SavedFinal
  | Raise _ => True
  end.
Proof.
  destruct (main E cfg model0 discriminator0 og0 od0 file) as [r|e] eqn:Hmain; [| exact I].
  apply main_cases in Hmain as (r1 & -> & Hr1).
  set (Inv := fun (done : list Z) (r : run A Buf) =>
                begin_epoch r = begin_epoch r1
                /\ trained_epochs (log r) = done
                /\ length (best_values (log r)) = length done
                /\ final_saves (log r) = 0%nat).
  assert (Hb : begin_epoch r1
               = match file with
                 | Some ck => if AUTO_RESUME cfg then ck_epoch ck else BEGIN_EPOCH cfg
                 | None => BEGIN_EPOCH cfg
                 end
               /\ Inv [] r1).
  { destruct Hr1 as [[-> Hno] | (ck & -> & -> & Hres)].
    - split; [| repeat split].
      destruct Hno as [-> | Hauto]; [reflexivity |].
      destruct file; [now rewrite Hauto | reflexivity].
    - apply resume_fields in Hres as (Hbe & _ & _ & _ & ks & Hlog).
      split; [exact Hbe |]. unfold Inv. rewrite Hlog. cbn [initial_run log app].
      destruct (observers_skipped ks) as (-> & -> & ->). repeat split. }
  destruct Hb as [Hb H1].
  assert (H2 : Inv (range2 (begin_epoch r1) (END_EPOCH cfg)) (train_loop E cfg r1).2).
  { apply train_loop_invariant; [intros og H; exact H | | exact H1].
    intros done e s r' _ (Hbe & Htr & Hbv & Hfs).
    destruct (epoch_body_cases E s r' e) as (_ & Hbe' & rate & Hcase).
    unfold Inv. rewrite Hbe'.
    assert (Hlog : exists mid, log (epoch_body E (s, r') e).2 = log r' ++ mid
                   /\ trained_epochs mid = [e]
                   /\ length (best_values mid) = 1%nat
                   /\ final_saves mid = 0%nat).
    { destruct Hcase as [(Hl & _) | (ck & Hl & _)]; eexists; (split; [exact Hl |]);
        repeat split. }
    destruct Hlog as (mid & -> & Hm1 & Hm2 & Hm3).
    rewrite trained_epochs_app, best_values_app, final_saves_app, length_app.
    rewrite Htr, Hm1, Hbv, Hm2, Hfs, Hm3, length_app.
    repeat split. exact Hbe. }
  destruct H2 as (Hbe & Htr & Hbv & Hfs).
  unfold save_final. cbn [begin_epoch log].
  rewrite trained_epochs_app, best_values_app, final_saves_app, length_app, last_snoc.
  rewrite Hbe, Htr, Hbv, Hfs. split; [exact Hb |].
  split; [apply app_nil_r |]. cbn [best_values omap list_omap length final_saves].
  unfold range2. rewrite length_seqZ. repeat split; lia.
Qed.

Lemma nondecreasing_snoc (l : list Q) (x : Q) :
  nondecreasing l -> Forall (fun p => (p <= x)%Q) l -> nondecreasing (l ++ [x]).
Proof.
  induction l as [|y l IH]; intros Hl Hx; cbn [app nondecreasing].
  - split; [constructor | exact Logic.I].
  - destruct Hl as [Hy Hl]. apply Forall_cons in Hx as [Hyx Hx]. split.
    + apply Forall_app. split; [assumption | now repeat constructor].
    + now apply IH.
Qed.

Lemma checkpoint_epochs_app (l1 l2 : list event) :
  checkpoint_epochs (l1 ++ l2) = checkpoint_epochs l1 ++ checkpoint_epochs l2.
Proof. apply omap_app. Qed.

Lemma checkpoint_epochs_skipped (ks : list string) :
  checkpoint_epochs (Skipped <$> ks) = [].
Proof. induction ks as [|k ks IH]; [reflexivity | exact IH]. Qed.

(** The incumbent a run starts from: the checkpoint's metric on resume, zero
    otherwise. *)
Lemma starting_incumbent (cfg : config) (model0 discriminator0 : module A)
    (og0 od0 : optimizer Buf) (file : option (checkpoint A Buf)) r1 :
  (r1 = initial_run cfg model0 discriminator0 og0 od0 file
   /\ (file = None \/ AUTO_RESUME cfg = false))
  \/ (exists ck, file = Some ck /\ AUTO_RESUME cfg = true
                 /\ resume ck (initial_run cfg model0 discriminator0 og0 od0 file) = Ok r1) ->
  best_perf r1
  = match file with
    | Some ck => if AUTO_RESUME cfg then ck_perf ck else 0%Q
    | None => 0%Q
    end
  /\ checkpoint_file r1 = file
  /\ best_values (log r1) = []
  /\ checkpoint_epochs (log r1) = [].
Proof.
  intros [[-> Hno] | (ck & -> & -> & Hres)].
  - split; [| repeat split].
    destruct Hno as [-> | Hauto]; [reflexivity |].
    destruct file; [now rewrite Hauto | reflexivity].
  - apply resume_fields in Hres as (_ & Hbp & Hf & _ & ks & Hlog).
    rewrite Hlog. cbn [initial_run log app] in *.
    destruct (observers_skipped ks) as (_ & -> & _).
    rewrite checkpoint_epochs_skipped. repeat split; assumption.
Qed.

(** X13: in a run that reaches its end the printed best PCKh@0.5 never
    decreases from one epoch to the next, no printed value exceeds the final
    [best_perf], the last printed value is the final [best_perf], and the
    final [best_perf] is at least the incumbent the run started from (the
    checkpoint's metric on resume, zero otherwise). *)
Theorem main_best_perf_monotone E (cfg : config)
    (model0 discriminator0 : module A) (og0 od0 : optimizer Buf)
    (file : option (checkpoint A Buf)) :
  match main E cfg model0 discriminator0 og0 od0 file with
  | Ok r =>
      nondecreasing (best_values (log r))
      /\ Forall (fun p => (p <= best_perf r)%Q) (best_values (log r))
      /\ match last (best_values (log r)) with
         | Some p => p = best_perf r
         | None => True
         end
      /\ (match file with
          | Some ck => if AUTO_RESUME cfg then ck_perf ck else 0
          | None => 0
          end <= best_perf r)%Q
  | Raise _ => True
  end.
Proof.
  destruct (main E cfg model0 discriminator0 og0 od0 file) as [r|e] eqn:Hmain;
    [| exact Logic.I].
  apply main_cases in Hmain as (r1 & -> & Hr1).
  apply starting_incumbent in Hr1 as (Hstart & _ & Hbv & _).
  set (start := match file with
                | Some ck => if AUTO_RESUME cfg then ck_perf ck else 0%Q
                | None => 0%Q
                end) in *.
  set (Inv := fun (_ : list Z) (r : run A Buf) =>
                nondecreasing (best_values (log r))
                /\ Forall (fun p => (p <= best_perf r)%Q) (best_values (log r))
                /\ match last (best_values (log r)) with
                   | Some p => p = best_perf r
                   | None => True
                   end
                /\ (start <= best_perf r)%Q).
  assert (H1 : Inv [] r1).
  { unfold Inv. rewrite Hbv, Hstart. cbn.
    split; [exact Logic.I |]. split; [constructor |]. split; [exact Logic.I |].
    apply Qle_refl. }
  assert (H2 : Inv (range2 (begin_epoch r1) (END_EPOCH cfg)) (train_loop E cfg r1).2).
  { apply train_loop_invariant; [intros og H; exact H | | exact H1].
    intros done e s r' _ (Hnd & Hall & _ & Hst).
    destruct (epoch_body_cases E s r' e) as (_ & _ & rate & Hcase).
    assert (Hnew : (best_perf r' <= best_perf (epoch_body E (s, r') e).2)%Q
                   /\ best_values (log (epoch_body E (s, r') e).2)
                      = best_values (log r') ++ [best_perf (epoch_body E (s, r') e).2]).
    { destruct Hcase as [(Hl & Hb & _) | (ck & Hl & Hb & _)].
      - rewrite Hl, Hb, best_values_app. split; [apply Qle_refl | reflexivity].
      - rewrite Hl, best_values_app. split; [exact Hb | reflexivity]. }
    destruct Hnew as [Hle Hbv'].
    assert (Hall' : Forall (fun p => (p <= best_perf (epoch_body E (s, r') e).2)%Q)
                      (best_values (log r'))).
    { eapply List.Forall_impl; [| exact Hall]. intros p Hp. cbn beta in Hp.
      eapply Qle_trans; eassumption. }
    unfold Inv. rewrite Hbv', last_snoc.
    split; [now apply nondecreasing_snoc |].
    split; [apply Forall_app; split; [assumption | repeat constructor; apply Qle_refl] |].
    split; [reflexivity |]. eapply Qle_trans; eassumption. }
  destruct H2 as (Hnd & Hall & Hlast & Hst).
  unfold save_final. cbn [best_perf log].
  rewrite best_values_app. cbn [best_values omap list_omap]. rewrite app_nil_r.
  repeat split; assumption.
Qed.

(** X14: in a run that reaches its end, either no checkpoint was written,
    the checkpoint file is as the run found it and [best_perf] is still the
    starting incumbent, or the file holds the checkpoint written last, its
    metric is the final [best_perf], and its epoch (the epoch a resume would
    begin at) lies above the begin epoch and at most at [END_EPOCH]. *)
Theorem main_checkpoint_holds_best E (cfg : config)
    (model0 discriminator0 : module A) (og0 od0 : optimizer Buf)
    (file : option (checkpoint A Buf)) :
  match main E cfg model0 discriminator0 og0 od0 file with
  | Ok r =>
      (checkpoint_epochs (log r) = []
       /\ checkpoint_file r = file
       /\ best_perf r = match file with
                        | Some ck => if AUTO_RESUME cfg then ck_perf ck else 0%Q
                        | None => 0%Q
                        end)
      \/ (exists ck,
            checkpoint_file r = Some ck
            /\ last (checkpoint_epochs (log r)) = Some (ck_epoch ck)
            /\ ck_perf ck = best_perf r
            /\ (begin_epoch r < ck_epoch ck <= END_EPOCH cfg)%Z)
  | Raise _ => True
  end.
Proof.
  destruct (main E cfg model0 discriminator0 og0 od0 file) as [r|e] eqn:Hmain;
    [| exact Logic.I].
  apply main_cases in Hmain as (r1 & -> & Hr1).
  apply starting_incumbent in Hr1 as (Hstart & Hfile & _ & Hce).
  set (start := match file with
                | Some ck => if AUTO_RESUME cfg then ck_perf ck else 0%Q
                | None => 0%Q
                end) in *.
  set (Inv := fun (_ : list Z) (r : run A Buf) =>
                begin_epoch r = begin_epoch r1
                /\ ((checkpoint_epochs (log r) = []
                     /\ checkpoint_file r = file /\ best_perf r = start)
                    \/ (exists ck,
                          checkpoint_file r = Some ck
                          /\ last (checkpoint_epochs (log r)) = Some (ck_epoch ck)
                          /\ ck_perf ck = best_perf r
                          /\ (begin_epoch r1 < ck_epoch ck <= END_EPOCH cfg)%Z))).
  assert (H1 : Inv [] r1) by (split; [reflexivity | left; repeat split; assumption]).
  assert (H2 : Inv (range2 (begin_epoch r1) (END_EPOCH cfg)) (train_loop E cfg r1).2).
  { apply train_loop_invariant; [intros og H; exact H | | exact H1].
    intros done e s r' He (Hbe & Hinv).
    destruct (epoch_body_cases E s r' e) as (_ & Hbe' & rate & Hcase).
    split; [now rewrite Hbe' |].
    destruct Hcase as [(Hl & Hb & Hf) | (ck & Hl & _ & Hf & Hp & Hep & _)].
    - rewrite Hl, Hb, Hf, checkpoint_epochs_app.
      cbn [checkpoint_epochs omap list_omap]. rewrite app_nil_r. exact Hinv.
    - right. exists ck. rewrite Hl, checkpoint_epochs_app.
      cbn [checkpoint_epochs omap list_omap].
      rewrite last_snoc, Hep. repeat split; try assumption; lia. }
  destruct H2 as (Hbe & Hinv).
  unfold save_final. cbn [best_perf log checkpoint_file begin_epoch].
  rewrite checkpoint_epochs_app. cbn [checkpoint_epochs omap list_omap].
  rewrite app_nil_r, Hbe. exact Hinv.
Qed.

End MainProps.
End MainProps.

(** ** The learning-rate schedule: its closed form *)

Module SchedProps.
Import Sched Observe.
Section SchedProps.
Context {Buf : Type}.
Implicit Types (so : scheduler * optimizer Buf) (o : optimizer Buf).









End SchedProps.
End SchedProps.

(** ** The learning rate of every epoch of a run *)

Module RateProps.
Import Main Observe MainFacts MainProps SchedProps.
Section RateProps.
Context {A Buf : Type}.
Implicit Types (r : run A Buf) (ck : checkpoint A Buf) (E : collaborators A Buf).








End RateProps.
End RateProps.

(** ** The adversarial epoch: the generator phase and the final report *)

Module TrainGANProps.
Import TrainGAN TrainGANObserve TrainGANFacts.
Section TrainGANProps.
Context {World Meta : Type}.
Implicit Types (s : state World Meta) (E : torch_api World).

Ltac exec_lookup :=
  cbn [locals];
  repeat (rewrite lookup_insert_ne by discriminate);
  first [apply lookup_insert_eq | eassumption | apply lookup_empty].

Ltac exec :=
  repeat first
    [ rewrite mbind_assoc
    | rewrite bind_assign
    | rewrite bind_emit
    | rewrite bind_on_world
    | rewrite bind_ret
    | rewrite bind_raise
    | rewrite bind_lift
    | rewrite bind_call_forward
    | erewrite bind_load_fast by exec_lookup
    | erewrite bind_load_fast_unbound by exec_lookup
    | progress cbn [as_tensor item py_add py_truediv world locals trace data scalar_tensor] ].





End TrainGANProps.



End TrainGANProps.

(** ** Resizing a batch of images *)

Module ResizeProps.
Import Resize.
Section ResizeProps.
Context {A : Type}.
Implicit Types (images : tensor A) (resize : tensor A -> list nat -> outcome (tensor A)).

(** X19: a batch without images is an error. For a zero-dimensional tensor
    [images.shape[0]] raises [IndexError]; for a batch dimension of 0 the
    loop body never runs, [resize] is never called, and [torch.stack] raises
    on the empty list. *)
Theorem resize_images_batch_no_image resize (dest_size dims : list nat) (entries : list A) :
  _resize_images_batch resize (mkTensor [] entries) dest_size
  = Raised (IndexError "tuple index out of range")
  /\ _resize_images_batch resize (mkTensor (0%nat :: dims) entries) dest_size
     = Raised (Builtin (RuntimeError "stack expects a non-empty TensorList")).
Proof. split; reflexivity. Qed.

Lemma getitem_in_range images (n : nat) (dims : list nat) (i : nat) :
  size images = n :: dims -> (i < n)%nat ->
  getitem images i
  = Returned (mkTensor dims (take (numel dims) (drop (i * numel dims) (data images)))).
Proof.
  intros Hsz Hi. unfold getitem. rewrite Hsz. now rewrite bool_decide_eq_true_2.
Qed.

(** The slices of a concatenation of equally long pieces are the pieces. *)
Lemma chunk_of_concat (c : nat) (ts : list (tensor A)) :
  Forall (fun t => length (data t) = c) ts ->
  forall i t, ts !! i = Some t ->
    take c (drop (i * c) (concat (data <$> ts))) = data t.
Proof.
  induction 1 as [|t0 ts Hlen _ IH]; intros i t Hi; [discriminate |].
  cbn [fmap list_fmap concat]. destruct i as [|i].
  - injection Hi as ->. cbn [Nat.mul drop]. now apply take_app_length'.
  - cbn [lookup list_lookup] in Hi.
    replace (S i * c)%nat with (length (data t0) + i * c)%nat by lia.
    rewrite drop_app_add. now apply IH.
Qed.

Lemma resize_loop_ok resize images (dest_size : list nat) (n : nat) (dims sz : list nat) :
  size images = n :: dims ->
  (forall i cur, getitem images i = Returned cur ->
     exists img, resize cur dest_size = Returned img
                 /\ size img = sz /\ length (data img) = numel sz) ->
  forall (indices : list nat) (res : list (tensor A)),
    Forall (fun i => (i < n)%nat) indices ->
    exists new,
      resize_loop resize images dest_size indices res = Returned (res ++ new)
      /\ Forall2 (fun i img =>
                    exists cur, getitem images i = Returned cur
                                /\ resize cur dest_size = Returned img) indices new
      /\ Forall (fun img => size img = sz /\ length (data img) = numel sz) new.
Proof.
  intros Hsz Hres indices. induction indices as [|i rest IH]; intros res Hall.
  - exists []. cbn. rewrite app_nil_r. repeat split; constructor.
  - apply Forall_cons in Hall as [Hi Hall]. cbn [resize_loop].
    rewrite (getitem_in_range images n dims i Hsz Hi). cbn [obind].
    destruct (Hres i _ (getitem_in_range images n dims i Hsz Hi))
      as (img & Hr & Hs & Hl).
    rewrite Hr. cbn [obind].
    destruct (IH (res ++ [img]) Hall) as (new & Hloop & Hf2 & Hf).
    exists (img :: new). rewrite Hloop, <- app_assoc. split; [reflexivity |].
    split.
    + constructor; [| exact Hf2].
      eexists. split; [apply (getitem_in_range images n dims i Hsz Hi) | exact Hr].
    + constructor; [split; assumption | exact Hf].
Qed.

Lemma stack_same_size (sz : list nat) (t0 : tensor A) (ts : list (tensor A)) :
  Forall (fun t => size t = sz) (t0 :: ts) ->
  stack (t0 :: ts) = Returned (mkTensor (length (t0 :: ts) :: sz)
                                 (concat (data <$> t0 :: ts))).
Proof.
  intros Hall. unfold stack.
  assert (Hsz0 : size t0 = sz) by (now apply Forall_cons in Hall as [? _]).
  assert (Hb : forallb (fun t => bool_decide (size t = size t0)) (t0 :: ts) = true).
  { apply forallb_forall. intros t Hin. apply bool_decide_eq_true_2.
    rewrite Hsz0. apply List.Forall_forall with (x := t) in Hall; assumption. }
  rewrite Hb, Hsz0. reflexivity.
Qed.

(** X20: when the batch holds n >= 1 images and [resize] returns, for every
    image of the batch, a well-formed tensor of one common size, the
    function returns a batch of n tensors of that size, and its i-th image
    is the resize of the i-th input image: no image is dropped, repeated or
    reordered. *)
Theorem resize_images_batch_rows resize images (dest_size : list nat)
    (n : nat) (dims sz : list nat) :
  size images = n :: dims ->
  n <> 0%nat ->
  (forall i cur, getitem images i = Returned cur ->
     exists img, resize cur dest_size = Returned img
                 /\ size img = sz /\ length (data img) = numel sz) ->
  exists out,
    _resize_images_batch resize images dest_size = Returned out
    /\ size out = n :: sz
    /\ forall i cur, getitem images i = Returned cur ->
         exists img, resize cur dest_size = Returned img
                     /\ getitem out i = Returned img.
Proof.
  intros Hsz Hn Hres. unfold _resize_images_batch, shape0. rewrite Hsz. cbn [obind].
  destruct (resize_loop_ok resize images dest_size n dims sz Hsz Hres (seq 0 n) [])
    as (new & Hloop & Hf2 & Hf).
  { apply Forall_forall. intros i Hi. apply elem_of_seq in Hi. lia. }
  rewrite Hloop. cbn [app obind].
  pose proof (Forall2_length _ _ _ Hf2) as Hlen. rewrite length_seq in Hlen.
  destruct new as [|t0 ts]; [cbn in Hlen; lia |].
  rewrite (stack_same_size sz t0 ts).
  2:{ eapply List.Forall_impl; [| exact Hf]. now intros t [? _]. }
  eexists. split; [reflexivity |]. cbn [size]. rewrite <- Hlen.
  split; [reflexivity |].
  intros i cur Hcur.
  assert (Hi : (i < n)%nat).
  { revert Hcur. unfold getitem. rewrite Hsz. case_bool_decide; [auto | discriminate]. }
  destruct (Forall2_lookup_l _ _ _ i i Hf2) as (img & Himg & cur' & Hcur' & Hr).
  { now apply lookup_seq_lt. }
  rewrite Hcur in Hcur'. injection Hcur' as <-.
  exists img. split; [exact Hr |].
  unfold getitem. cbn [size data]. rewrite bool_decide_eq_true_2 by exact Hi.
  rewrite (chunk_of_concat (numel sz) (t0 :: ts)) with (t := img).
  - f_equal. apply List.Forall_forall with (x := img) in Hf.
    + destruct Hf as [<- _]. now destruct img.
    + apply list_elem_of_In. eapply list_elem_of_lookup_2. exact Himg.
  - eapply List.Forall_impl; [| exact Hf]. now intros t [_ ?].
  - exact Himg.
Qed.

End ResizeProps.

Lemma resize_images_batch_rows_witness :
  let resize : tensor Z -> list nat -> outcome (tensor Z) := fun img _ => Returned img in
  let images := mkTensor [2%nat; 1%nat] [7; 9]%Z in
  size images = [2%nat; 1%nat]
  /\ 2%nat <> 0%nat
  /\ (forall i cur, getitem images i = Returned cur ->
        exists img, resize cur [1%nat] = Returned img
                    /\ size img = [1%nat] /\ length (data img) = numel [1%nat])
  /\ exists out,
      _resize_images_batch resize images [1%nat] = Returned out
      /\ size out = [2%nat; 1%nat]
      /\ forall i cur, getitem images i = Returned cur ->
           exists img, resize cur [1%nat] = Returned img
                       /\ getitem out i = Returned img.
Proof.
  cbv zeta.
  set (resize := (fun img _ => Returned img) : tensor Z -> list nat -> outcome (tensor Z)).
  set (images := mkTensor [2%nat; 1%nat] [7; 9]%Z).
  assert (H1 : size images = [2%nat; 1%nat]) by reflexivity.
  assert (H2 : 2%nat <> 0%nat) by discriminate.
  assert (H3 : forall i cur, getitem images i = Returned cur ->
                 exists img, resize cur [1%nat] = Returned img
                             /\ size img = [1%nat]
                             /\ length (data img) = numel [1%nat]).
  { intros i cur Hcur. exists cur. split; [reflexivity |].
    destruct i as [|[|i]]; cbn in Hcur; try discriminate;
      injection Hcur as <-; split; reflexivity. }
  repeat (split; [assumption |]).
  exact (resize_images_batch_rows resize images [1%nat] 2 [1%nat] [1%nat] H1 H2 H3).
Defined.

End ResizeProps.
